(** * Jobs Comparison Monitor: a shallow embedding and its properties

    The development embeds the two variants of [ZyteJobsComparisonMonitor]
    ([zyte_spidermon/jobs_comparison.py] and
    [zyte_spidermon/monitors/jobs_comparison.py]) and proves the properties
    of configuration checking, paginated job retrieval, client-side
    filtering and threshold computation.

    Python integers are [Z], Python floats are binary64 primitive floats,
    dictionaries with string keys are [gmap string _], exceptions are an
    explicit outcome, and the calls made to the job-list API are recorded in
    a log threaded through the computation. The monitors variant reads two
    settings by names that its module does not bind; evaluating such a name
    raises NameError, as it does in Python. *)

From stdpp Require Import gmap strings list sorting.
From Stdlib Require Import ZArith PrimFloat FloatOps SpecFloat.

Set Warnings "-inexact-float".
Local Open Scope Z_scope.

(** ** Python preliminaries *)

(** The exceptions that the monitor can raise or let through. *)
Inductive exn : Type :=
| NotConfigured (msg : string)
| ZeroDivisionError
| OverflowError
| ValueError
| KeyError (key : string)
| NameError (name : string)
| JSONDecodeError.

(** The result of running a piece of Python code: a value, an exception, or
    no result yet because the iteration budget of the [while True] loop ran
    out. *)
Inductive outcome (A : Type) : Type :=
| Returns (a : A)
| Raises (e : exn)
| OutOfFuel.
Arguments Returns {A} a.
Arguments Raises {A} e.
Arguments OutOfFuel {A}.

Definition outcome_bind {A B : Type} (o : outcome A) (k : A -> outcome B)
  : outcome B :=
  match o with
  | Returns a => k a
  | Raises e => Raises e
  | OutOfFuel => OutOfFuel
  end.

(** [len(l)] as a Python integer. *)
Definition len {A : Type} (l : list A) : Z := Z.of_nat (length l).

(** JSON scalars, as they occur as values of spider arguments. *)
Inductive PyVal : Type :=
| PyNone
| PyBool (b : bool)
| PyInt (z : Z)
| PyStr (s : string).

(** Python's [==] on these values; [bool] is a subtype of [int], so
    [True == 1] and [False == 0]. *)
Definition py_eqb (a b : PyVal) : bool :=
  match a, b with
  | PyNone, PyNone => true
  | PyBool x, PyBool y => Bool.eqb x y
  | PyInt x, PyInt y => x =? y
  | PyStr x, PyStr y => String.eqb x y
  | PyBool x, PyInt y => Z.b2z x =? y
  | PyInt x, PyBool y => x =? Z.b2z y
  | _, _ => false
  end.

(** Python's [==] on dictionaries: same number of keys, and every key of the
    left one is bound in the right one to an equal value. *)
Definition dict_eqb (a b : gmap string PyVal) : bool :=
  Nat.eqb (size a) (size b)
  && forallb (fun kv => match b !! kv.1 with
                        | Some w => py_eqb kv.2 w
                        | None => false
                        end) (map_to_list a).

(** *** Floating point *)

Definition prec : Z := 53.
Definition emax : Z := 1024.

(** An integer as an exact (not yet rounded) binary number. *)
Definition Z2SF (z : Z) : spec_float :=
  match z with
  | Z0 => S754_zero false
  | Zpos p => S754_finite false p 0
  | Zneg p => S754_finite true p 0
  end.

(** [a / b] on Python integers: the quotient rounded once to the nearest
    binary64 number. *)
Definition int_truediv (a b : Z) : outcome float :=
  if b =? 0 then Raises ZeroDivisionError
  else match SFdiv prec emax (Z2SF a) (Z2SF b) with
       | S754_infinity _ => Raises OverflowError
       | q => Returns (SF2Prim q)
       end.

(** [math.ceil(x)] on a float. *)
Definition math_ceil (x : float) : outcome Z :=
  match Prim2SF x with
  | S754_zero _ => Returns 0
  | S754_finite s m e =>
      let n := if s then Zneg m else Zpos m in
      Returns (match e with
               | Zneg k => - ((- n) / 2 ^ Zpos k)
               | _ => n * 2 ^ e
               end)
  | S754_infinity _ => Raises OverflowError
  | S754_nan => Raises ValueError
  end.

(** *** Strings in code-point order, for [sorted] *)

Definition str_le (s t : string) : Prop := String.leb s t = true.

#[global] Instance str_le_dec (s t : string) : Decision (str_le s t) :=
  decide (String.leb s t = true).

(** [sorted(s)] for a set of strings. *)
Definition sorted (s : gset string) : list string :=
  merge_sort str_le (elements s).

(** ** External collaborators *)

(** Modelled from the spec: the settings store. It is Scrapy's [Settings]
    object, which is not part of this repository; the store is read-only and
    typed, and absence of a setting is distinguishable from a zero or empty
    value. A field is [None] when the name is not in [settings.attributes].
    The store may hold the last two settings, but the monitors variant,
    the only one to read them, does not define the names it reads them
    by. *)
Record Settings : Type := {
  SPIDERMON_JOBS_COMPARISON : option Z;
  SPIDERMON_JOBS_COMPARISON_STATES : option (list string);
  SPIDERMON_JOBS_COMPARISON_TAGS : option (list string);
  SPIDERMON_JOBS_COMPARISON_CLOSE_REASONS : option (list string);
  SPIDERMON_JOBS_COMPARISON_THRESHOLD : option float;
  SPIDERMON_JOBS_COMPARISON_ARGUMENTS : option (gmap string PyVal);
  SPIDERMON_JOBS_COMPARISON_ARGUMENTS_ENABLED : option bool
}.

(** [name in settings.attributes] *)
Definition in_attributes {A : Type} (v : option A) : bool :=
  match v with Some _ => true | None => false end.

Definition getint (v : option Z) : Z := default 0 v.
Definition getfloat (v : option float) : float := default 0%float v.
Definition getlist (v : option (list string)) (d : list string)
  : list string := default d v.
Definition getbool (v : option bool) (d : bool) : bool := default d v.
Definition getdict (v : option (gmap string PyVal)) : gmap string PyVal :=
  default ∅ v.

(** The monitor object: what [self] gives access to. *)
Record Monitor : Type := {
  crawler_settings : Settings;
  monitor_name : string
}.

(** A historical job as returned by the job-list API. A field is [None]
    when the key is absent from the record. *)
Record Job : Type := {
  items : option Z;
  close_reason : option string;
  spider_args : option (gmap string PyVal)
}.

(** The keyword arguments of one call of [client.spider.jobs.list]. *)
Record Request : Type := {
  start : Z;
  state : list string;
  count : Z;
  has_tag : option (list string)
}.

(** Modelled from the spec: the job API client ([.utils.Client], not under
    the sources). A call answers with an ordered page of job records; a
    call that fails, whose error the code lets through, is not part of this
    model. *)
Definition Client : Type := Request -> list Job.

(** Modelled from the spec: the text of the environment variable
    [SHUB_JOB_DATA] as [json.loads] sees it. Either the decoder rejects it,
    or it is a JSON object whose [tags] member is absent or a list of
    strings. Text that decodes to anything else (not an object, or with
    another kind of [tags]), on which the code fails with an error of
    Python's own, is not part of this model. *)
Inductive json_text : Type :=
| Malformed
| ObjectText (tags : option (list string)).

(** The decoded object. *)
Record JobData : Type := { tags : option (list string) }.

(** The text ["{}"]. *)
Definition empty_object_text : json_text := ObjectText None.

Definition json_loads (t : json_text) : outcome JobData :=
  match t with
  | Malformed => Raises JSONDecodeError
  | ObjectText ts => Returns {| tags := ts |}
  end.

(** [os.environ.get("SHUB_JOB_DATA", d)]; the environment is [None] when
    the variable is not set. *)
Definition os_environ_get (environ : option json_text) (d : json_text)
  : json_text := default d environ.

(** ** Computations that call the API *)

(** A computation takes the log of the API calls made so far and gives its
    outcome and the extended log. *)
Definition M (A : Type) : Type := list Request -> outcome A * list Request.

Definition ret {A : Type} (a : A) : M A := fun log => (Returns a, log).

Definition raise {A : Type} (e : exn) : M A := fun log => (Raises e, log).

Definition lift {A : Type} (o : outcome A) : M A := fun log => (o, log).

Definition bind {A B : Type} (m : M A) (k : A -> M B) : M B :=
  fun log =>
    match m log with
    | (Returns a, log') => k a log'
    | (Raises e, log') => (Raises e, log')
    | (OutOfFuel, log') => (OutOfFuel, log')
    end.

(** One call of [client.spider.jobs.list(...)]. *)
Definition jobs_list (client : Client) (req : Request) : M (list Job) :=
  fun log => (Returns (client req), log ++ [req]).

Declare Scope py_scope.
Delimit Scope py_scope with py.
Notation "'let*' x ':=' m 'in' k" := (bind m (fun x => k))
  (at level 10, x name, m at level 100, k at level 200) : py_scope.
Notation "'let+' x ':=' o 'in' k" := (outcome_bind o (fun x => k))
  (at level 10, x name, o at level 100, k at level 200) : py_scope.
Local Open Scope py_scope.

Definition MAX_API_COUNT : Z := 1000.

(** [x or None] for a list [x]. *)
Definition or_None {A : Type} (l : list A) : option (list A) :=
  match l with [] => None | _ => Some l end.

(** [x in l] for strings, where [x] may be [None]. *)
Definition opt_in (x : option string) (l : list string) : bool :=
  match x with
  | Some s => bool_decide (s ∈ l)
  | None => false
  end.

(** Truth value of a list or of a dictionary that may be [None]. *)
Definition truthy_list {A : Type} (l : list A) : bool :=
  match l with [] => false | _ => true end.

Definition truthy_dict (d : option (gmap string PyVal)) : bool :=
  match d with
  | Some m => negb (bool_decide (m = ∅))
  | None => false
  end.

(** ** [zyte_spidermon/monitors/jobs_comparison.py] *)

Module Monitors.
Section ZyteJobsComparisonMonitor.
Variable self : Monitor.
Variable environ : option json_text.
Variable client : Client.

Let settings : Settings := crawler_settings self.

Definition not_configured (name : string) : exn :=
  NotConfigured ("Configure " +:+ name +:+ " to your project settings to use "
                 +:+ monitor_name self +:+ ".").

(** [run]: [super_run] stands for [super().run(result)], the run of the
    framework's stat monitor. *)
Definition run {A : Type} (super_run : M A) : M A :=
  if negb (in_attributes (SPIDERMON_JOBS_COMPARISON settings))
     || (getint (SPIDERMON_JOBS_COMPARISON settings) <=? 0)
  then raise (not_configured "SPIDERMON_JOBS_COMPARISON")
  else
    if negb (in_attributes (SPIDERMON_JOBS_COMPARISON_THRESHOLD settings))
       || PrimFloat.leb
            (getfloat (SPIDERMON_JOBS_COMPARISON_THRESHOLD settings)) 0
    then raise (not_configured "SPIDERMON_JOBS_COMPARISON_THRESHOLD")
    else super_run.

Definition _get_tags_to_filter : outcome (list string) :=
  let desired_tags := getlist (SPIDERMON_JOBS_COMPARISON_TAGS settings) [] in
  if negb (truthy_list desired_tags) then Returns []
  else
    let+ job_data := json_loads (os_environ_get environ empty_object_text) in
    match tags job_data with
    | None | Some [] => Returns []
    | Some current_tags =>
        let tags_to_filter : gset string :=
          list_to_set desired_tags ∩ list_to_set current_tags in
        Returns (sorted tags_to_filter)
    end.

(** The names that the module binds at top level (lines 11 to 15); each is
    bound to the string of the same spelling. *)
Definition module_globals : list string :=
  ["SPIDERMON_JOBS_COMPARISON"; "SPIDERMON_JOBS_COMPARISON_STATES";
   "SPIDERMON_JOBS_COMPARISON_TAGS";
   "SPIDERMON_JOBS_COMPARISON_CLOSE_REASONS";
   "SPIDERMON_JOBS_COMPARISON_THRESHOLD"].

(** Evaluation of a global name of the module: its value, or NameError when
    the module does not bind it. *)
Definition load_global (name : string) : outcome string :=
  if existsb (String.eqb name) module_globals then Returns name
  else Raises (NameError name).

Definition _get_args_to_filter : outcome (gmap string PyVal) :=
  let+ name := load_global "SPIDERMON_JOBS_COMPARISON_ARGUMENTS" in
  let desired_args :=
    getdict (SPIDERMON_JOBS_COMPARISON_ARGUMENTS settings) in
  if bool_decide (desired_args = ∅) then Returns ∅ else Returns desired_args.

Definition _has_desired_args (job : Job) (args : gmap string PyVal)
  : outcome bool :=
  if bool_decide (args = ∅) && negb (truthy_dict (spider_args job))
  then Returns true
  else if bool_decide (args = ∅) && truthy_dict (spider_args job)
  then Returns false
  else
    match spider_args job with
    | None => Raises (KeyError "spider_args")
    | Some job_spider_args =>
        let job_args : gset string := dom job_spider_args in
        if negb (forallb (fun a => bool_decide (a ∈ job_args))
                         (map_to_list args).*1)
        then Returns false
        else Returns (dict_eqb args job_spider_args)
    end.

(** The body of [for job in current_jobs], which appends the qualifying
    jobs of a page to [total_jobs]. *)
Fixpoint for_job_in (close_reasons : list string)
    (args : gmap string PyVal) (args_enabled : bool)
    (current_jobs total_jobs : list Job) : outcome (list Job) :=
  match current_jobs with
  | [] => Returns total_jobs
  | job :: rest =>
      if truthy_list close_reasons
         && negb (opt_in (close_reason job) close_reasons)
      then for_job_in close_reasons args args_enabled rest total_jobs
      else
        let+ skip := (if args_enabled
                      then let+ ok := _has_desired_args job args in
                           Returns (negb ok)
                      else Returns false) in
        if skip
        then for_job_in close_reasons args args_enabled rest total_jobs
        else for_job_in close_reasons args args_enabled rest
               (total_jobs ++ [job])
  end.

(** The [while True] loop of [_get_jobs]; [fuel] bounds the number of
    iterations. *)
Fixpoint while_True (fuel : nat) (states tags close_reasons : list string)
    (args : gmap string PyVal) (args_enabled : bool)
    (number_of_jobs : Z) (total_jobs : list Job) (start : Z)
  : M (list Job) :=
  match fuel with
  | O => lift OutOfFuel
  | S fuel' =>
      let count := Z.min (number_of_jobs - len total_jobs) MAX_API_COUNT in
      let* current_jobs :=
        jobs_list client {| start := start; state := states;
                            count := count; has_tag := or_None tags |} in
      let* total_jobs :=
        lift (for_job_in close_reasons args args_enabled
                         current_jobs total_jobs) in
      if (len current_jobs <? MAX_API_COUNT)
         || (number_of_jobs <=? len total_jobs)
      then ret total_jobs
      else while_True fuel' states tags close_reasons args args_enabled
             number_of_jobs total_jobs (start + len current_jobs)
  end.

Definition _get_jobs (fuel : nat) (states : list string)
    (number_of_jobs : Z) : M (list Job) :=
  let* tags := lift _get_tags_to_filter in
  let close_reasons :=
    getlist (SPIDERMON_JOBS_COMPARISON_CLOSE_REASONS settings) [] in
  let* args := lift _get_args_to_filter in
  let* name := lift (load_global
                       "SPIDERMON_JOBS_COMPARISON_ARGUMENTS_ENABLED") in
  let args_enabled :=
    getbool (SPIDERMON_JOBS_COMPARISON_ARGUMENTS_ENABLED settings) false in
  while_True fuel states tags close_reasons args args_enabled
    number_of_jobs [] 0.

(** [sum(job.get("items", 0) for job in jobs)] *)
Definition sum_items (jobs : list Job) : Z :=
  foldr (fun job acc => default 0 (items job) + acc) 0 jobs.

Definition get_threshold (fuel : nat) : M Z :=
  let number_of_jobs := getint (SPIDERMON_JOBS_COMPARISON settings) in
  let threshold := getfloat (SPIDERMON_JOBS_COMPARISON_THRESHOLD settings) in
  let states :=
    getlist (SPIDERMON_JOBS_COMPARISON_STATES settings) ["finished"] in
  let* jobs := _get_jobs fuel states number_of_jobs in
  let* previous_count := lift (int_truediv (sum_items jobs) (len jobs)) in
  let* expected_item_extracted :=
    lift (math_ceil (PrimFloat.mul previous_count threshold)) in
  ret expected_item_extracted.
End ZyteJobsComparisonMonitor.
End Monitors.

(** ** [zyte_spidermon/jobs_comparison.py] *)

Module Root.
Section ZyteJobsComparisonMonitor.
Variable self : Monitor.
Variable environ : option json_text.
Variable client : Client.

Let settings : Settings := crawler_settings self.

Definition not_configured (name : string) : exn :=
  NotConfigured ("Configure " +:+ name +:+ " to your project settings to use "
                 +:+ monitor_name self +:+ ".").

Definition run {A : Type} (super_run : M A) : M A :=
  if negb (in_attributes (SPIDERMON_JOBS_COMPARISON settings))
     || (getint (SPIDERMON_JOBS_COMPARISON settings) <=? 0)
  then raise (not_configured "SPIDERMON_JOBS_COMPARISON")
  else
    if negb (in_attributes (SPIDERMON_JOBS_COMPARISON_THRESHOLD settings))
       || PrimFloat.leb
            (getfloat (SPIDERMON_JOBS_COMPARISON_THRESHOLD settings)) 0
    then raise (not_configured "SPIDERMON_JOBS_COMPARISON_THRESHOLD")
    else super_run.

Definition _get_tags_to_filter : outcome (list string) :=
  let desired_tags := getlist (SPIDERMON_JOBS_COMPARISON_TAGS settings) [] in
  if negb (truthy_list desired_tags) then Returns []
  else
    let+ job_data := json_loads (os_environ_get environ empty_object_text) in
    match tags job_data with
    | None | Some [] => Returns []
    | Some current_tags =>
        let tags_to_filter : gset string :=
          list_to_set desired_tags ∩ list_to_set current_tags in
        Returns (sorted tags_to_filter)
    end.

(** The body of [for job in current_jobs]; this variant filters on the close
    reason only. *)
Fixpoint for_job_in (close_reasons : list string)
    (current_jobs total_jobs : list Job) : list Job :=
  match current_jobs with
  | [] => total_jobs
  | job :: rest =>
      if truthy_list close_reasons
         && negb (opt_in (close_reason job) close_reasons)
      then for_job_in close_reasons rest total_jobs
      else for_job_in close_reasons rest (total_jobs ++ [job])
  end.

Fixpoint while_True (fuel : nat) (states tags close_reasons : list string)
    (number_of_jobs : Z) (total_jobs : list Job) (start : Z)
  : M (list Job) :=
  match fuel with
  | O => lift OutOfFuel
  | S fuel' =>
      let count := Z.min (number_of_jobs - len total_jobs) MAX_API_COUNT in
      let* current_jobs :=
        jobs_list client {| start := start; state := states;
                            count := count; has_tag := or_None tags |} in
      let total_jobs := for_job_in close_reasons current_jobs total_jobs in
      if (len current_jobs <? MAX_API_COUNT)
         || (number_of_jobs <=? len total_jobs)
      then ret total_jobs
      else while_True fuel' states tags close_reasons number_of_jobs
             total_jobs (start + len current_jobs)
  end.

Definition _get_jobs (fuel : nat) (states : list string)
    (number_of_jobs : Z) : M (list Job) :=
  let* tags := lift _get_tags_to_filter in
  let close_reasons :=
    getlist (SPIDERMON_JOBS_COMPARISON_CLOSE_REASONS settings) [] in
  while_True fuel states tags close_reasons number_of_jobs [] 0.

Definition sum_items (jobs : list Job) : Z :=
  foldr (fun job acc => default 0 (items job) + acc) 0 jobs.

Definition get_threshold (fuel : nat) : M Z :=
  let number_of_jobs := getint (SPIDERMON_JOBS_COMPARISON settings) in
  let threshold := getfloat (SPIDERMON_JOBS_COMPARISON_THRESHOLD settings) in
  let states :=
    getlist (SPIDERMON_JOBS_COMPARISON_STATES settings) ["finished"] in
  let* jobs := _get_jobs fuel states number_of_jobs in
  let* previous_count := lift (int_truediv (sum_items jobs) (len jobs)) in
  let* expected_item_extracted :=
    lift (math_ceil (PrimFloat.mul previous_count threshold)) in
  ret expected_item_extracted.
End ZyteJobsComparisonMonitor.
End Root.

(** ** Statements about one run *)

Section statements.
Variable self : Monitor.

Let settings : Settings := crawler_settings self.

(** The target-count setting is absent or not positive. *)
Definition target_unset : Prop :=
  SPIDERMON_JOBS_COMPARISON settings = None
  \/ getint (SPIDERMON_JOBS_COMPARISON settings) <= 0.

(** The threshold setting is absent or not positive. *)
Definition threshold_unset : Prop :=
  SPIDERMON_JOBS_COMPARISON_THRESHOLD settings = None
  \/ PrimFloat.leb (getfloat (SPIDERMON_JOBS_COMPARISON_THRESHOLD settings)) 0
     = true.
End statements.

(** Two dictionaries are equal: they bind the same keys, to values that
    Python's [==] identifies. *)
Definition dict_equal (a b : gmap string PyVal) : Prop :=
  forall k : string,
    option_Forall2 (fun v w => py_eqb v w = true) (a !! k) (b !! k).

(** The arithmetic mean of the item counts, as a float. *)
Definition mean_items (jobs : list Job) : outcome float :=
  int_truediv (Monitors.sum_items jobs) (len jobs).

(** The ceiling of the mean scaled by the threshold. *)
Definition expected_minimum (jobs : list Job) (threshold : float)
  : outcome Z :=
  let+ previous_count := mean_items jobs in
  math_ceil (PrimFloat.mul previous_count threshold).

(** [z] is the least integer not below the finite float [x], whose value is
    [n * 2 ^ e] for its signed mantissa [n] and exponent [e]. *)
Definition is_ceiling (x : float) (z : Z) : Prop :=
  match Prim2SF x with
  | S754_zero _ => z = 0
  | S754_finite s m e =>
      let n := if s then Zneg m else Zpos m in
      if e <? 0 then (z - 1) * 2 ^ (- e) < n <= z * 2 ^ (- e)
      else z = n * 2 ^ e
  | _ => False
  end.

(** The float [x] is a number: neither an infinity nor a NaN. *)
Definition is_finite (x : float) : Prop :=
  match Prim2SF x with
  | S754_zero _ | S754_finite _ _ _ => True
  | _ => False
  end.

(** The environment in which [SHUB_JOB_DATA] decodes to an object whose
    [tags] member is the list [current]. *)
Definition env_with_tags (current : list string) : option json_text :=
  Some (ObjectText (Some current)).

(** The reading of tag resolution under which a job-data blob that is absent
    or fails to decode gives an empty tag filter instead of an error. *)
Definition blob_failure_yields_no_tags : Prop :=
  forall (self : Monitor) (environ : option json_text),
    environ = None \/ environ = Some Malformed ->
    Monitors._get_tags_to_filter self environ = Returns [].

(** *** Pagination *)

Section pagination.
Variable client : Client.
Variable filter_page : list Job -> list Job -> outcome (list Job).
Variable number_of_jobs : Z.





(** No call answers with more records than were asked for. *)
Definition well_behaved : Prop :=
  forall req : Request, len (client req) <= Z.max 0 (count req).

(** The API holds [N] records: a page from offset [start] has at most
    [N - start] of them. *)
Definition holds_records (N : Z) : Prop :=
  forall req : Request, len (client req) <= Z.max 0 (N - start req).

(** Every call but the last was answered with a full page, and the call
    after it asks for the offset one page further. *)
Fixpoint full_pages_between (calls : list Request) : Prop :=
  match calls with
  | req :: (next :: _) as rest =>
      len (client req) = MAX_API_COUNT
      /\ start next = start req + MAX_API_COUNT
      /\ full_pages_between rest
  | _ => True
  end.
End pagination.

(** The run [run], started with the log [log], ends by returning or raising
    after at most one call more than the API has full pages, and every call
    but the last was answered with a full page. *)
Definition finishes_within (client : Client) (N : Z) (run : M (list Job))
    (log : list Request) : Prop :=
  exists (o : outcome (list Job)) (calls : list Request),
    run log = (o, log ++ calls)
    /\ o <> OutOfFuel
    /\ (length calls <= Z.to_nat (N / MAX_API_COUNT) + 1)%nat
    /\ full_pages_between client calls.



(** Every run of [_get_jobs] against a well-behaved API returns at most the
    wanted number of jobs, and fewer only if some call was answered with
    fewer records than it asked for. *)
Definition fewer_only_if_short_of_request : Prop :=
  forall (self : Monitor) (environ : option json_text) (client : Client)
         (fuel : nat) (states : list string) (n : Z)
         (log log' : list Request) (jobs : list Job),
    0 < n ->
    well_behaved client ->
    Root._get_jobs self environ client fuel states n log
    = (Returns jobs, log') ->
    len jobs <= n
    /\ (len jobs < n ->
        exists (calls : list Request) (req : Request),
          log' = log ++ calls /\ req ∈ calls
          /\ len (client req) < count req).

(** [get_threshold] returns an integer for every non-empty list of fetched
    jobs and every positive threshold. *)
Definition returns_for_every_threshold : Prop :=
  forall (self : Monitor) (environ : option json_text) (client : Client)
         (fuel : nat) (log log' : list Request) (jobs : list Job),
    Root._get_jobs self environ client fuel
      (getlist (SPIDERMON_JOBS_COMPARISON_STATES (crawler_settings self))
               ["finished"])
      (getint (SPIDERMON_JOBS_COMPARISON (crawler_settings self))) log
    = (Returns jobs, log') ->
    jobs <> [] ->
    PrimFloat.ltb 0
      (getfloat (SPIDERMON_JOBS_COMPARISON_THRESHOLD (crawler_settings self)))
    = true ->
    exists z : Z,
      fst (Root.get_threshold self environ client fuel log) = Returns z.

(** ** Example inputs *)

Module Examples.
Definition settings0 : Settings :=
  {| SPIDERMON_JOBS_COMPARISON := None;
     SPIDERMON_JOBS_COMPARISON_STATES := None;
     SPIDERMON_JOBS_COMPARISON_TAGS := None;
     SPIDERMON_JOBS_COMPARISON_CLOSE_REASONS := None;
     SPIDERMON_JOBS_COMPARISON_THRESHOLD := None;
     SPIDERMON_JOBS_COMPARISON_ARGUMENTS := None;
     SPIDERMON_JOBS_COMPARISON_ARGUMENTS_ENABLED := None |}.

Definition settings (n : option Z) (threshold : option float)
    (desired_tags close_reasons : option (list string))
    (args : option (gmap string PyVal)) (enabled : option bool) : Settings :=
  {| SPIDERMON_JOBS_COMPARISON := n;
     SPIDERMON_JOBS_COMPARISON_STATES := None;
     SPIDERMON_JOBS_COMPARISON_TAGS := desired_tags;
     SPIDERMON_JOBS_COMPARISON_CLOSE_REASONS := close_reasons;
     SPIDERMON_JOBS_COMPARISON_THRESHOLD := threshold;
     SPIDERMON_JOBS_COMPARISON_ARGUMENTS := args;
     SPIDERMON_JOBS_COMPARISON_ARGUMENTS_ENABLED := enabled |}.

(** Desired tags [a] and [b], nothing else configured. *)
Definition settings_tags_ab : Settings :=
  settings None None (Some ["a"; "b"]) None None None.

Definition monitor (s : Settings) : Monitor :=
  {| crawler_settings := s; monitor_name := "Jobs Comparison Monitor" |}.

(** A job-list API over a fixed sequence of stored jobs: a call answers
    with at most [count] records from offset [start]. *)
Definition api_of (db : list Job) : Client :=
  fun req => take (Z.to_nat (count req)) (drop (Z.to_nat (start req)) db).

Definition job (n : Z) (reason : string)
    (args : option (gmap string PyVal)) : Job :=
  {| items := Some n; close_reason := Some reason; spider_args := args |}.

(** Desired arguments [{"is_full_crawl": True}] and the spider arguments of
    three jobs: the same mapping, the empty one and a strict superset. *)
Definition full_crawl : gmap string PyVal :=
  {[ "is_full_crawl" := PyBool true ]}.
Definition full_crawl_extra : gmap string PyVal :=
  <[ "extra" := PyInt 1 ]> full_crawl.
Definition job_A : Job := job 10 "finished" (Some full_crawl).
Definition job_B : Job := job 10 "finished" (Some ∅).
Definition job_C : Job := job 10 "finished" (Some full_crawl_extra).

(** Three finished jobs with 100, 200 and 300 items; three jobs wanted and
    a threshold of 0.9. *)
Definition jobs_100_200_300 : list Job :=
  [job 100 "finished" None; job 200 "finished" None; job 300 "finished" None].
Definition settings_3_09 : Settings :=
  settings (Some 3) (Some 0.9%float) None None None None.

(** Two jobs wanted, only finished ones; the API holds four jobs, of which
    the second was cancelled. *)
Definition settings_2_finished : Settings :=
  settings (Some 2) (Some 0.9%float) None (Some ["finished"]) None None.
Definition four_jobs : list Job :=
  [job 10 "finished" None; job 20 "cancelled" None;
   job 30 "finished" None; job 40 "finished" None].

(** One job wanted and a threshold of 1e308; the API holds one job with
    100 items. *)
Definition settings_1_huge : Settings :=
  settings (Some 1) (Some 1e308%float) None None None None.
Definition one_job : list Job := [job 100 "finished" None].

(** 2500 jobs wanted, no filter; the API holds 2600 finished jobs. *)
Definition settings_2500 : Settings :=
  settings (Some 2500) (Some 0.9%float) None None None None.
Definition many_jobs : list Job := replicate 2600 (job 1 "finished" None).
End Examples.

(** ** Statements about the filters and the calls *)

(** The close-reason test of the loop body: no close reasons are configured,
    or the record's close reason is one of them. *)
Definition close_reason_ok (close_reasons : list string) (job : Job) : bool :=
  negb (truthy_list close_reasons) || opt_in (close_reason job) close_reasons.

(** The desired arguments equal the record's spider arguments, an absent
    mapping being read as the empty one. *)
Definition args_equal (args : gmap string PyVal) (job : Job) : bool :=
  dict_eqb args (default ∅ (spider_args job)).

(** Arguments are desired and the record has no [spider_args] key. *)
Definition lacks_spider_args (args : gmap string PyVal) (job : Job) : bool :=
  negb (bool_decide (args = ∅))
  && match spider_args job with None => true | Some _ => false end.

(** The record is kept by the loop body. *)
Definition passes (close_reasons : list string) (args : gmap string PyVal)
    (args_enabled : bool) (job : Job) : bool :=
  close_reason_ok close_reasons job
  && (negb args_enabled || args_equal args job).

(** The loop body fails on the record. *)
Definition breaks (close_reasons : list string) (args : gmap string PyVal)
    (args_enabled : bool) (job : Job) : bool :=
  close_reason_ok close_reasons job
  && args_enabled && lacks_spider_args args job.

(** The records received by the calls [calls], in the order received. *)
Definition pages (client : Client) (calls : list Request) : list Job :=
  concat (map client calls).

(** Each call asks for the offset that is the number of records received
    by the calls before it, counted from [st]. *)
Fixpoint contiguous (client : Client) (st : Z) (calls : list Request)
  : Prop :=
  match calls with
  | [] => True
  | req :: rest =>
      start req = st /\ contiguous client (st + len (client req)) rest
  end.

(** * Theorems *)

(** ** Configuration check *)

(** C1. When the target-count setting is absent or not positive, or the
    threshold setting is absent or not positive, [run] raises NotConfigured
    and the log of API calls is the one it started with, whatever the
    framework's run would have done; the target count is checked first, so
    that its message is the one raised whenever it is unset. *)
Theorem run_not_configured (self : Monitor) (A : Type) (super_run : M A)
    (log : list Request) :
  target_unset self \/ threshold_unset self ->
  exists name,
    Monitors.run self super_run log
      = (Raises (Monitors.not_configured self name), log)
    /\ (target_unset self -> name = "SPIDERMON_JOBS_COMPARISON")
    /\ (~ target_unset self -> name = "SPIDERMON_JOBS_COMPARISON_THRESHOLD").
Proof.
  unfold target_unset, threshold_unset, Monitors.run.
  destruct (SPIDERMON_JOBS_COMPARISON (crawler_settings self)) as [n|] eqn:En;
    unfold getint; cbn [in_attributes negb orb default from_option id].
  - destruct (Z.leb_spec n 0) as [Hn|Hn].
    + intros _. exists "SPIDERMON_JOBS_COMPARISON".
      split; [reflexivity|]. split; [reflexivity|].
      intros H. exfalso. apply H. right. exact Hn.
    + intros [[H|H]|H]; [discriminate H|lia|].
      exists "SPIDERMON_JOBS_COMPARISON_THRESHOLD".
      assert (Hb : negb (in_attributes
                           (SPIDERMON_JOBS_COMPARISON_THRESHOLD
                              (crawler_settings self)))
                   || PrimFloat.leb
                        (getfloat (SPIDERMON_JOBS_COMPARISON_THRESHOLD
                                     (crawler_settings self))) 0 = true).
      { destruct H as [H|H]; [rewrite H; reflexivity|].
        rewrite H. apply orb_true_r. }
      rewrite Hb. split; [reflexivity|]. split; [|reflexivity].
      intros [H'|H']; [discriminate H'|lia].
  - intros _. exists "SPIDERMON_JOBS_COMPARISON".
    split; [reflexivity|]. split; [reflexivity|].
    intros H. exfalso. apply H. left. reflexivity.
Qed.

Lemma run_not_configured_witness :
  let unset := Examples.monitor Examples.settings0 in
  let no_threshold :=
    Examples.monitor (Examples.settings (Some 2) None None None None None) in
  let client := Examples.api_of Examples.four_jobs in
  (exists name,
     Monitors.run unset (Monitors.get_threshold unset None client 1) []
     = (Raises (Monitors.not_configured unset name), [])
     /\ name = "SPIDERMON_JOBS_COMPARISON")
  /\ (exists name,
        Monitors.run no_threshold
          (Monitors.get_threshold no_threshold None client 1) []
        = (Raises (Monitors.not_configured no_threshold name), [])
        /\ name = "SPIDERMON_JOBS_COMPARISON_THRESHOLD").
Proof.
  intros unset no_threshold client. split.
  - destruct (run_not_configured unset Z
                (Monitors.get_threshold unset None client 1) [])
      as [name [H1 [H2 _]]].
    + left. left. reflexivity.
    + exists name. split; [exact H1|]. apply H2. left. reflexivity.
  - destruct (run_not_configured no_threshold Z
                (Monitors.get_threshold no_threshold None client 1) [])
      as [name [H1 [_ H2]]].
    + right. left. reflexivity.
    + exists name. split; [exact H1|]. apply H2.
      intros [H|H]; [discriminate H|]. vm_compute in H. apply H. reflexivity.
Defined.

(** ** Argument filter *)

Lemma dict_eqb_size (a b : gmap string PyVal) :
  dict_eqb a b = true -> size a = size b.
Proof.
  unfold dict_eqb. intros H. apply andb_prop in H as [H _].
  by apply Nat.eqb_eq.
Qed.

Lemma dict_eqb_lookup (a b : gmap string PyVal) (k : string) (v : PyVal) :
  dict_eqb a b = true -> a !! k = Some v ->
  exists w, b !! k = Some w /\ py_eqb v w = true.
Proof.
  unfold dict_eqb. intros H Hk. apply andb_prop in H as [_ H].
  rewrite forallb_forall in H.
  specialize (H (k, v)). cbn in H.
  destruct (b !! k) as [w|].
  - exists w. split; [done|]. apply H.
    apply list_elem_of_In, elem_of_map_to_list, Hk.
  - exfalso. enough (false = true) by done. apply H.
    apply list_elem_of_In, elem_of_map_to_list, Hk.
Qed.

Lemma dict_equal_dom (a b : gmap string PyVal) :
  dict_equal a b -> dom a = dom b.
Proof.
  intros H. apply set_eq. intros k. rewrite !elem_of_dom.
  specialize (H k). destruct H; split; intros [? ?]; by eauto.
Qed.

Lemma dict_eqb_spec (a b : gmap string PyVal) :
  dict_eqb a b = true <-> dict_equal a b.
Proof.
  split.
  - intros H.
    assert (Hsub : dom a ⊆ dom b).
    { intros k [v Hv]%elem_of_dom.
      destruct (dict_eqb_lookup a b k v H Hv) as [w [Hw _]].
      apply elem_of_dom. by exists w. }
    assert (Hdom : dom a = dom b).
    { apply set_subseteq_size_eq; [done|].
      rewrite !size_dom. by rewrite (dict_eqb_size a b H). }
    intros k. destruct (a !! k) as [v|] eqn:Ha.
    + destruct (dict_eqb_lookup a b k v H Ha) as [w [Hw Hvw]].
      rewrite Hw. by constructor.
    + assert (Hb : b !! k = None).
      { apply not_elem_of_dom. rewrite <- Hdom. by apply not_elem_of_dom. }
      rewrite Hb. constructor.
  - intros H. unfold dict_eqb. apply andb_true_intro. split.
    + apply Nat.eqb_eq. rewrite <- !(size_dom (D:=gset string)).
      by rewrite (dict_equal_dom a b H).
    + apply forallb_forall. intros [k v] Hin.
      apply list_elem_of_In, elem_of_map_to_list in Hin. cbn.
      specialize (H k). rewrite Hin in H. inversion H; subst. done.
Qed.

Lemma keys_present (args m : gmap string PyVal) :
  forallb (fun a => bool_decide (a ∈ dom m)) (map_to_list args).*1 = true
  <-> (forall k, k ∈ dom args -> k ∈ dom m).
Proof.
  split.
  - intros H k [v Hv]%elem_of_dom.
    pose proof (proj1 (forallb_forall _ _) H) as H'.
    eapply bool_decide_eq_true_1, H', list_elem_of_In.
    apply list_elem_of_fmap. exists (k, v). split; [done|].
    by apply elem_of_map_to_list.
  - intros H. apply forallb_forall. intros k Hin.
    apply bool_decide_eq_true_2, H.
    apply list_elem_of_In, list_elem_of_fmap in Hin as [[k' v] [-> Hin]].
    apply elem_of_map_to_list in Hin. apply elem_of_dom. by exists v.
Qed.

(** C4. The argument filter: with no desired arguments a record passes when
    it has no spider arguments (absent or empty) and is excluded when it has
    some; with desired arguments a record passes exactly when every desired
    key is among its spider arguments and the two mappings are equal, so that
    a record whose spider arguments strictly extend the desired ones is
    excluded. *)
Theorem has_desired_args_spec (job : Job) (args : gmap string PyVal) :
  (args = ∅ -> spider_args job = None \/ spider_args job = Some ∅ ->
   Monitors._has_desired_args job args = Returns true)
  /\ (args = ∅ -> (exists m, spider_args job = Some m /\ m <> ∅) ->
      Monitors._has_desired_args job args = Returns false)
  /\ (args <> ∅ ->
      (Monitors._has_desired_args job args = Returns true
       <-> exists m, spider_args job = Some m
                     /\ (forall k, k ∈ dom args -> k ∈ dom m)
                     /\ dict_equal args m))
  /\ (args <> ∅ -> forall m, spider_args job = Some m -> args ⊂ m ->
      Monitors._has_desired_args job args = Returns false).
Proof.
  unfold Monitors._has_desired_args.
  split; [|split; [|split]].
  - intros -> [H|H]; rewrite H; cbn.
    + by rewrite bool_decide_eq_true_2.
    + by rewrite !bool_decide_eq_true_2.
  - intros -> (m & H & Hm). rewrite H. cbn.
    rewrite (bool_decide_eq_true_2 (∅ = ∅)) by done.
    by rewrite (bool_decide_eq_false_2 (m = ∅)).
  - intros Hne. rewrite (bool_decide_eq_false_2 (args = ∅)) by done. cbn.
    split.
    + destruct (spider_args job) as [m|]; [|done].
      intros Hr. exists m. split; [done|].
      destruct (forallb _ _) eqn:Hk; cbn in Hr; [|done].
      split; [by apply keys_present|].
      apply dict_eqb_spec. by injection Hr.
    + intros (m & -> & Hk & Heq).
      apply keys_present in Hk. rewrite Hk. cbn.
      f_equal. by apply dict_eqb_spec.
  - intros Hne m -> Hsub.
    rewrite (bool_decide_eq_false_2 (args = ∅)) by done. cbn.
    destruct (forallb _ _); cbn; [|done].
    f_equal. apply not_true_is_false. intros Heq%dict_eqb_size.
    apply map_subset_size in Hsub. lia.
Qed.

Lemma has_desired_args_spec_witness :
  Monitors._has_desired_args Examples.job_A Examples.full_crawl = Returns true
  /\ Monitors._has_desired_args Examples.job_B Examples.full_crawl
     <> Returns true
  /\ Monitors._has_desired_args Examples.job_C Examples.full_crawl
     = Returns false
  /\ Monitors._has_desired_args Examples.job_B ∅ = Returns true
  /\ Monitors._has_desired_args Examples.job_A ∅ = Returns false.
Proof.
  assert (Hne : Examples.full_crawl <> ∅).
  { intros H. apply (f_equal (fun m => m !! "is_full_crawl")) in H.
    vm_compute in H. discriminate H. }
  destruct (has_desired_args_spec Examples.job_A Examples.full_crawl)
    as (_ & _ & HA & _).
  destruct (has_desired_args_spec Examples.job_B Examples.full_crawl)
    as (_ & _ & HB & _).
  destruct (has_desired_args_spec Examples.job_C Examples.full_crawl)
    as (_ & _ & _ & HC).
  destruct (has_desired_args_spec Examples.job_B ∅) as (HB0 & _).
  destruct (has_desired_args_spec Examples.job_A ∅) as (_ & HA0 & _).
  split; [|split; [|split; [|split]]].
  - apply HA; [exact Hne|].
    exists Examples.full_crawl. split; [reflexivity|]. split; [done|].
    intros k. destruct (Examples.full_crawl !! k) as [v|] eqn:E;
      constructor.
    unfold Examples.full_crawl in E.
    apply lookup_singleton_Some in E as [_ <-]. reflexivity.
  - intros H. apply HB in H; [|exact Hne].
    destruct H as (m & Hm & Hk & _). injection Hm as <-.
    assert (Hin : "is_full_crawl" ∈ dom (∅ : gmap string PyVal)).
    { apply Hk. unfold Examples.full_crawl.
      rewrite dom_singleton_L. by apply elem_of_singleton. }
    rewrite dom_empty_L in Hin.
    exact (not_elem_of_empty (C:=gset string) "is_full_crawl" Hin).
  - apply HC with (m := Examples.full_crawl_extra);
      [exact Hne|reflexivity|].
    unfold Examples.full_crawl_extra. apply insert_subset.
    unfold Examples.full_crawl. by apply lookup_singleton_ne.
  - apply HB0; [done|]. by right.
  - apply HA0; [done|].
    exists Examples.full_crawl. split; [reflexivity|exact Hne].
Defined.

(** ** Tag resolution *)

Lemma string_compare_trans (s1 : string) : forall s2 s3 : string,
  String.compare s1 s2 <> Gt -> String.compare s2 s3 <> Gt ->
  String.compare s1 s3 <> Gt.
Proof.
  induction s1 as [|c1 s1 IH]; intros [|c2 s2] [|c3 s3]; cbn; try congruence.
  destruct (Ascii.compare c1 c2) eqn:E12; try congruence;
    destruct (Ascii.compare c2 c3) eqn:E23; try congruence.
  - apply Ascii.compare_eq_iff in E12, E23. subst.
    unfold Ascii.compare. rewrite N.compare_refl. apply IH.
  - apply Ascii.compare_eq_iff in E12. subst. rewrite E23. congruence.
  - apply Ascii.compare_eq_iff in E23. subst. rewrite E12. congruence.
  - intros _ _. unfold Ascii.compare in *.
    rewrite N.compare_lt_iff in E12, E23.
    assert (H : (Ascii.N_of_ascii c1 < Ascii.N_of_ascii c3)%N) by lia.
    apply N.compare_lt_iff in H. rewrite H. congruence.
Qed.

Lemma str_le_compare (s t : string) : str_le s t <-> String.compare s t <> Gt.
Proof.
  unfold str_le, String.leb. destruct (String.compare s t); split; congruence.
Qed.

#[local] Instance str_le_total : Total str_le.
Proof. intros s t. apply String.leb_total. Qed.

#[local] Instance str_le_trans : Transitive str_le.
Proof.
  intros s t u. rewrite !str_le_compare. apply string_compare_trans.
Qed.

Lemma sorted_spec (s : gset string) :
  StronglySorted str_le (sorted s)
  /\ NoDup (sorted s)
  /\ forall t : string, t ∈ sorted s <-> t ∈ s.
Proof.
  unfold sorted. split; [|split].
  - apply StronglySorted_merge_sort; apply _.
  - rewrite merge_sort_Permutation. apply NoDup_elements.
  - intros t. rewrite merge_sort_Permutation. apply elem_of_elements.
Qed.

Lemma sorted_empty : sorted ∅ = [].
Proof.
  apply Permutation_nil_r. unfold sorted.
  rewrite merge_sort_Permutation. by rewrite elements_empty.
Qed.

(** *** The log of API calls *)

Lemma Monitors_while_True_eq (client : Client) (fuel : nat)
    (states tgs close_reasons : list string) (args : gmap string PyVal)
    (args_enabled : bool) (n : Z) (total : list Job) (st : Z)
    (log : list Request) :
  Monitors.while_True client (S fuel) states tgs close_reasons args
    args_enabled n total st log
  = let req := {| start := st; state := states;
                  count := Z.min (n - len total) MAX_API_COUNT;
                  has_tag := or_None tgs |} in
    match Monitors.for_job_in close_reasons args args_enabled
            (client req) total with
    | Returns total' =>
        if (len (client req) <? MAX_API_COUNT) || (n <=? len total')
        then (Returns total', log ++ [req])
        else Monitors.while_True client fuel states tgs close_reasons args
               args_enabled n total' (st + len (client req)) (log ++ [req])
    | Raises e => (Raises e, log ++ [req])
    | OutOfFuel => (OutOfFuel, log ++ [req])
    end.
Proof.
  cbn [Monitors.while_True]. unfold bind, jobs_list, lift, ret. cbn.
  destruct (Monitors.for_job_in _ _ _ _ _); try reflexivity.
  destruct (_ || _); reflexivity.
Qed.

Lemma Monitors_while_True_frame (client : Client) (fuel : nat)
    (states tgs close_reasons : list string) (args : gmap string PyVal)
    (args_enabled : bool) (n : Z) :
  forall (total : list Job) (st : Z) (log : list Request),
    Monitors.while_True client fuel states tgs close_reasons args
      args_enabled n total st log
    = (fst (Monitors.while_True client fuel states tgs close_reasons args
              args_enabled n total st []),
       log ++ snd (Monitors.while_True client fuel states tgs close_reasons
                     args args_enabled n total st [])).
Proof.
  induction fuel as [|fuel IH]; intros total st log.
  - cbn. by rewrite app_nil_r.
  - rewrite !Monitors_while_True_eq. cbv zeta.
    destruct (Monitors.for_job_in _ _ _ _ _) as [total'| |]; try done.
    destruct (_ || _); [done|].
    rewrite (IH total' _ (log ++ _)), (IH total' _ ([] ++ _)). cbn.
    by rewrite <- app_assoc.
Qed.

Lemma Monitors_while_True_calls (client : Client) (fuel : nat)
    (states tgs close_reasons : list string) (args : gmap string PyVal)
    (args_enabled : bool) (n : Z) :
  forall (total : list Job) (st : Z),
    Forall (fun req => has_tag req = or_None tgs /\ state req = states)
      (snd (Monitors.while_True client fuel states tgs close_reasons args
              args_enabled n total st [])).
Proof.
  induction fuel as [|fuel IH]; intros total st.
  - constructor.
  - rewrite Monitors_while_True_eq. cbv zeta.
    destruct (Monitors.for_job_in _ _ _ _ _) as [total'| |]; cbn;
      try (constructor; [done|constructor]).
    destruct (_ || _); cbn; [constructor; [done|constructor]|].
    rewrite Monitors_while_True_frame. cbn. constructor; [done|]. apply IH.
Qed.

Lemma load_global_ARGUMENTS :
  Monitors.load_global "SPIDERMON_JOBS_COMPARISON_ARGUMENTS"
  = Raises (NameError "SPIDERMON_JOBS_COMPARISON_ARGUMENTS").
Proof. reflexivity. Qed.

Lemma Monitors_get_args_to_filter_eq (self : Monitor) :
  Monitors._get_args_to_filter self
  = Raises (NameError "SPIDERMON_JOBS_COMPARISON_ARGUMENTS").
Proof.
  unfold Monitors._get_args_to_filter. by rewrite load_global_ARGUMENTS.
Qed.

(** What [_get_jobs] of the monitors variant does: after tag resolution it
    fails on the first name that the module does not bind. *)
Lemma Monitors_get_jobs_eq (self : Monitor) (environ : option json_text)
    (client : Client) (fuel : nat) (states : list string) (n : Z)
    (log : list Request) :
  Monitors._get_jobs self environ client fuel states n log
  = match Monitors._get_tags_to_filter self environ with
    | Returns tgs =>
        (Raises (NameError "SPIDERMON_JOBS_COMPARISON_ARGUMENTS"), log)
    | Raises e => (Raises e, log)
    | OutOfFuel => (OutOfFuel, log)
    end.
Proof.
  unfold Monitors._get_jobs, bind, lift.
  rewrite Monitors_get_args_to_filter_eq.
  destruct (Monitors._get_tags_to_filter self environ); reflexivity.
Qed.

Lemma Root_for_job_in_eq (close_reasons : list string)
    (args : gmap string PyVal) (page : list Job) :
  forall total : list Job,
    Monitors.for_job_in close_reasons args false page total
    = Returns (Root.for_job_in close_reasons page total).
Proof.
  induction page as [|job page IH]; intros total; cbn; [done|].
  destruct (_ && _); apply IH.
Qed.

(** The loop of the root variant is the loop of the monitors variant with
    the argument filter off. *)
Lemma Root_while_True_eq (client : Client)
    (states tgs close_reasons : list string) (args : gmap string PyVal)
    (n : Z) (fuel : nat) :
  forall (total : list Job) (st : Z) (log : list Request),
    Root.while_True client fuel states tgs close_reasons n total st log
    = Monitors.while_True client fuel states tgs close_reasons args false
        n total st log.
Proof.
  induction fuel as [|fuel IH]; intros total st log; [done|].
  rewrite Monitors_while_True_eq. cbv zeta.
  rewrite Root_for_job_in_eq.
  cbn [Root.while_True]. unfold bind, jobs_list, ret.
  destruct (_ || _); [done|]. apply IH.
Qed.

(** What [_get_jobs] of the root variant does once the tag filter is
    resolved. *)
Lemma Root_get_jobs_eq (self : Monitor) (environ : option json_text)
    (client : Client) (fuel : nat) (states : list string) (n : Z)
    (log : list Request) :
  Root._get_jobs self environ client fuel states n log
  = match Monitors._get_tags_to_filter self environ with
    | Returns tgs =>
        Monitors.while_True client fuel states tgs
          (getlist (SPIDERMON_JOBS_COMPARISON_CLOSE_REASONS
                      (crawler_settings self)) [])
          ∅ false n [] 0 log
    | Raises e => (Raises e, log)
    | OutOfFuel => (OutOfFuel, log)
    end.
Proof.
  unfold Root._get_jobs, bind, lift.
  change (Root._get_tags_to_filter self environ)
    with (Monitors._get_tags_to_filter self environ).
  destruct (Monitors._get_tags_to_filter self environ); try reflexivity.
  apply Root_while_True_eq.
Qed.

(** C6. The resolved tag filter is the sorted intersection of the desired
    tags and the current job's tags, it is empty when either of them is, and
    every call of the job-list API, in either variant, carries it as
    [has_tag], which is [None] when it is empty. Desired tags a, b and
    current tags b, c resolve to the single tag b. *)
Theorem tags_to_filter_spec (self : Monitor) (current : list string) :
  let desired :=
    getlist (SPIDERMON_JOBS_COMPARISON_TAGS (crawler_settings self)) [] in
  (exists r : list string,
     Monitors._get_tags_to_filter self (env_with_tags current) = Returns r
     /\ StronglySorted str_le r
     /\ NoDup r
     /\ (forall t : string, t ∈ r <-> t ∈ desired /\ t ∈ current)
     /\ (desired = [] \/ current = [] -> r = [])
     /\ (forall (client : Client) (fuel : nat) (states : list string)
                (n : Z) (log : list Request),
           exists calls : list Request,
             snd (Monitors._get_jobs self (env_with_tags current) client
                    fuel states n log) = log ++ calls
             /\ Forall (fun req => has_tag req = or_None r) calls
             /\ (r = [] -> Forall (fun req => has_tag req = None) calls))
     /\ (forall (client : Client) (fuel : nat) (states : list string)
                (n : Z) (log : list Request),
           exists calls : list Request,
             snd (Root._get_jobs self (env_with_tags current) client
                    fuel states n log) = log ++ calls
             /\ Forall (fun req => has_tag req = or_None r) calls
             /\ (r = [] -> Forall (fun req => has_tag req = None) calls)))
  /\ Monitors._get_tags_to_filter (Examples.monitor Examples.settings_tags_ab)
       (env_with_tags ["b"; "c"]) = Returns ["b"].
Proof.
  intros desired. split; [|by vm_compute].
  assert (Hr : exists r : list string,
             Monitors._get_tags_to_filter self (env_with_tags current)
               = Returns r
             /\ StronglySorted str_le r /\ NoDup r
             /\ (forall t : string, t ∈ r <-> t ∈ desired /\ t ∈ current)
             /\ (desired = [] \/ current = [] -> r = [])).
  { unfold Monitors._get_tags_to_filter. fold desired.
    destruct desired as [|d desired'] eqn:Ed; cbn.
    - exists []. split; [done|]. split; [constructor|].
      split; [constructor|]. split; [|done].
      intros t. split; [by intros ?%elem_of_nil|].
      by intros [?%elem_of_nil _].
    - destruct current as [|c current'] eqn:Ec.
      + exists []. split; [done|]. split; [constructor|].
        split; [constructor|]. split; [|done].
        intros t. split; [by intros ?%elem_of_nil|].
        by intros [_ ?%elem_of_nil].
      + eexists. split; [reflexivity|].
        destruct (sorted_spec (list_to_set (d :: desired')
                               ∩ list_to_set (c :: current')))
          as (Hs & Hn & Hi).
        split; [exact Hs|]. split; [exact Hn|]. split.
        * intros t. rewrite Hi, elem_of_intersection.
          by rewrite !elem_of_list_to_set.
        * intros [?|?]; done. }
  destruct Hr as (r & Hr & Hs & Hn & Hi & He).
  exists r. do 5 (split; [done|]). split.
  - intros client fuel states n log.
    rewrite Monitors_get_jobs_eq, Hr. cbn.
    exists []. by rewrite app_nil_r.
  - intros client fuel states n log.
    rewrite Root_get_jobs_eq, Hr, Monitors_while_True_frame. cbn.
    eexists. split; [reflexivity|].
    pose proof (Monitors_while_True_calls client fuel states r
                  (getlist (SPIDERMON_JOBS_COMPARISON_CLOSE_REASONS
                              (crawler_settings self)) [])
                  ∅ false n [] 0) as Hc.
    split.
    + eapply Forall_impl; [exact Hc|]. by intros req [? _].
    + intros ->. eapply Forall_impl; [exact Hc|]. by intros req [? _].
Qed.

(** C7 (as the code has it). When [SHUB_JOB_DATA] is not set, tag resolution
    gives the empty filter. When it is set to text that does not decode,
    the decoding error is raised whenever desired tags are configured; only
    when there are none is the variable not read and the filter empty. *)
Theorem tags_blob_absent_or_malformed (self : Monitor) :
  let desired :=
    getlist (SPIDERMON_JOBS_COMPARISON_TAGS (crawler_settings self)) [] in
  Monitors._get_tags_to_filter self None = Returns []
  /\ (desired = [] ->
      Monitors._get_tags_to_filter self (Some Malformed) = Returns [])
  /\ (desired <> [] ->
      Monitors._get_tags_to_filter self (Some Malformed)
      = Raises JSONDecodeError).
Proof.
  intros desired. unfold Monitors._get_tags_to_filter. fold desired.
  destruct desired; cbn; repeat split; done.
Qed.

Lemma tags_blob_absent_or_malformed_witness :
  Monitors._get_tags_to_filter (Examples.monitor Examples.settings_tags_ab)
    (Some Malformed) = Raises JSONDecodeError
  /\ Monitors._get_tags_to_filter (Examples.monitor Examples.settings0)
       (Some Malformed) = Returns [].
Proof.
  split.
  - apply (tags_blob_absent_or_malformed
             (Examples.monitor Examples.settings_tags_ab)). discriminate.
  - apply (tags_blob_absent_or_malformed
             (Examples.monitor Examples.settings0)). reflexivity.
Defined.

(** C7, read as giving the empty filter on every failure, does not hold:
    with desired tags configured and a job-data text that does not decode,
    tag resolution raises instead of giving the empty filter. *)
Lemma malformed_blob_raises : ~ blob_failure_yields_no_tags.
Proof.
  intros H.
  specialize (H (Examples.monitor Examples.settings_tags_ab) (Some Malformed)
                (or_intror eq_refl)).
  vm_compute in H. discriminate H.
Qed.

(** ** Threshold computation *)

Lemma Monitors_get_threshold_eq (self : Monitor)
    (environ : option json_text) (client : Client) (fuel : nat)
    (log : list Request) :
  Monitors.get_threshold self environ client fuel log
  = match Monitors._get_jobs self environ client fuel
            (getlist (SPIDERMON_JOBS_COMPARISON_STATES
                        (crawler_settings self)) ["finished"])
            (getint (SPIDERMON_JOBS_COMPARISON (crawler_settings self)))
            log with
    | (Returns jobs, log') =>
        (expected_minimum jobs
           (getfloat (SPIDERMON_JOBS_COMPARISON_THRESHOLD
                        (crawler_settings self))), log')
    | (Raises e, log') => (Raises e, log')
    | (OutOfFuel, log') => (OutOfFuel, log')
    end.
Proof.
  unfold Monitors.get_threshold, bind, lift, ret.
  destruct (Monitors._get_jobs _ _ _ _ _ _ _) as [[jobs|e|] log'];
    try reflexivity.
  unfold expected_minimum, mean_items.
  destruct (int_truediv _ _) as [pc|e|]; try reflexivity. cbn.
  destruct (math_ceil _); reflexivity.
Qed.

Lemma math_ceil_is_ceiling (x : float) (z : Z) :
  math_ceil x = Returns z -> is_ceiling x z.
Proof.
  unfold math_ceil, is_ceiling.
  destruct (Prim2SF x) as [s|s| |s m e]; try discriminate.
  - by intros [= <-].
  - intros [= <-]. cbv zeta.
    set (n := if s then Z.neg m else Z.pos m).
    destruct e as [|k|k]; cbn [Z.ltb Z.compare].
    + reflexivity.
    + reflexivity.
    + change (- Z.neg k) with (Z.pos k).
      assert (Hd : 0 < 2 ^ Z.pos k) by (apply Z.pow_pos_nonneg; lia).
      pose proof (Z.div_mod (- n) (2 ^ Z.pos k)) as Hdm.
      pose proof (Z.mod_pos_bound (- n) (2 ^ Z.pos k) Hd) as Hb.
      generalize dependent (2 ^ Z.pos k). intros d Hd.
      generalize ((- n) / d) ((- n) mod d). intros q r Hdm Hb.
      specialize (Hdm ltac:(lia)).
      replace ((- q - 1) * d) with (- (d * q) - d) by ring.
      replace (- q * d) with (- (d * q)) by ring.
      lia.
Qed.

Lemma Root_get_threshold_eq (self : Monitor) (environ : option json_text)
    (client : Client) (fuel : nat) (log : list Request) :
  Root.get_threshold self environ client fuel log
  = match Root._get_jobs self environ client fuel
            (getlist (SPIDERMON_JOBS_COMPARISON_STATES
                        (crawler_settings self)) ["finished"])
            (getint (SPIDERMON_JOBS_COMPARISON (crawler_settings self)))
            log with
    | (Returns jobs, log') =>
        (expected_minimum jobs
           (getfloat (SPIDERMON_JOBS_COMPARISON_THRESHOLD
                        (crawler_settings self))), log')
    | (Raises e, log') => (Raises e, log')
    | (OutOfFuel, log') => (OutOfFuel, log')
    end.
Proof.
  unfold Root.get_threshold, bind, lift, ret.
  destruct (Root._get_jobs _ _ _ _ _ _ _) as [[jobs|e|] log'];
    try reflexivity.
  unfold expected_minimum, mean_items.
  change (Root.sum_items jobs) with (Monitors.sum_items jobs).
  destruct (int_truediv _ _) as [pc|e|]; try reflexivity. cbn.
  destruct (math_ceil _); reflexivity.
Qed.

Lemma expected_minimum_errors (jobs : list Job) (threshold : float) :
  (expected_minimum jobs threshold = Raises ZeroDivisionError <-> jobs = [])
  /\ forall e : exn,
       expected_minimum jobs threshold = Raises e ->
       e = ZeroDivisionError \/ e = OverflowError \/ e = ValueError.
Proof.
  unfold expected_minimum, mean_items, int_truediv.
  destruct (Z.eqb_spec (len jobs) 0) as [Hz|Hz].
  - assert (Hnil : jobs = []).
    { destruct jobs; [done|]. unfold len in Hz. cbn in Hz. lia. }
    split; [done|]. intros e [= <-]. by left.
  - assert (Hne : jobs <> []) by (by intros ->).
    assert (Hceil : forall (x : float) (e : exn),
               math_ceil x = Raises e -> e = OverflowError \/ e = ValueError).
    { intros x e. unfold math_ceil.
      destruct (Prim2SF x); intros [= <-]; by eauto. }
    destruct (SFdiv prec emax _ _) as [s|s| |s m ex]; cbn.
    + split.
      * split; [|done]. intros H%Hceil. by destruct H.
      * intros e H%Hceil. by right.
    + split; [done|]. intros e [= <-]. by eauto.
    + split.
      * split; [|done]. intros H%Hceil. by destruct H.
      * intros e H%Hceil. by right.
    + split.
      * split; [|done]. intros H%Hceil. by destruct H.
      * intros e H%Hceil. by right.
Qed.

(** C5 (as the code has it). For a non-empty list of qualifying jobs and
    any threshold, [get_threshold] gives the ceiling of the mean item count
    multiplied by the threshold, both computed in binary64: it does not
    divide by zero, it returns whenever the mean is representable and the
    product is a number, the integer it returns is the least one not below
    the product, and otherwise it raises OverflowError or ValueError. For
    items 100, 200, 300 and threshold 0.9 it returns 180. *)
Theorem get_threshold_mean_ceiling (self : Monitor)
    (environ : option json_text) (client : Client) (fuel : nat)
    (log log' : list Request) (jobs : list Job) :
  let threshold :=
    getfloat (SPIDERMON_JOBS_COMPARISON_THRESHOLD (crawler_settings self)) in
  Root._get_jobs self environ client fuel
    (getlist (SPIDERMON_JOBS_COMPARISON_STATES (crawler_settings self))
             ["finished"])
    (getint (SPIDERMON_JOBS_COMPARISON (crawler_settings self))) log
  = (Returns jobs, log') ->
  jobs <> [] ->
  (Root.get_threshold self environ client fuel log
   = (expected_minimum jobs threshold, log')
   /\ (forall previous_count : float,
         mean_items jobs = Returns previous_count ->
         is_finite (PrimFloat.mul previous_count threshold) ->
         exists z : Z, expected_minimum jobs threshold = Returns z)
   /\ (forall z : Z,
         expected_minimum jobs threshold = Returns z ->
         exists previous_count : float,
           mean_items jobs = Returns previous_count
           /\ is_ceiling (PrimFloat.mul previous_count threshold) z)
   /\ (forall e : exn,
         expected_minimum jobs threshold = Raises e ->
         e = OverflowError \/ e = ValueError))
  /\ fst (Root.get_threshold (Examples.monitor Examples.settings_3_09)
            None (Examples.api_of Examples.jobs_100_200_300) 1 [])
     = Returns 180.
Proof.
  intros threshold Hjobs Hne. split; [|by vm_compute].
  split; [|split; [|split]].
  - rewrite Root_get_threshold_eq, Hjobs. reflexivity.
  - intros pc Hpc. unfold expected_minimum, is_finite, math_ceil.
    rewrite Hpc. cbn.
    destruct (Prim2SF _); [by eexists|done|done|by eexists].
  - intros z. unfold expected_minimum.
    destruct (mean_items jobs) as [pc|e|]; cbn; try discriminate.
    intros Hz. exists pc. split; [reflexivity|].
    by apply math_ceil_is_ceiling.
  - intros e He.
    destruct (expected_minimum_errors jobs threshold) as [Hzero Herr].
    destruct (Herr e He) as [->|H]; [|exact H].
    exfalso. apply Hne. by apply Hzero.
Qed.

Lemma get_threshold_mean_ceiling_witness :
  Root.get_threshold (Examples.monitor Examples.settings_3_09) None
    (Examples.api_of Examples.jobs_100_200_300) 1 []
  = (expected_minimum Examples.jobs_100_200_300 0.9%float,
     [{| start := 0; state := ["finished"]; count := 3; has_tag := None |}]).
Proof.
  apply (get_threshold_mean_ceiling (Examples.monitor Examples.settings_3_09)
           None (Examples.api_of Examples.jobs_100_200_300) 1 []).
  - vm_compute. reflexivity.
  - discriminate.
Defined.

(** C5, read as returning an integer for every positive threshold, does not
    hold: with one job of 100 items and a threshold of 1e308 the product is
    infinite and [math.ceil] raises OverflowError. *)
Lemma huge_threshold_overflows : ~ returns_for_every_threshold.
Proof.
  intros H.
  destruct (H (Examples.monitor Examples.settings_1_huge) None
              (Examples.api_of Examples.one_job) 1%nat []
              [{| start := 0; state := ["finished"]; count := 1;
                  has_tag := None |}]
              Examples.one_job) as [z Hz].
  - vm_compute. reflexivity.
  - discriminate.
  - vm_compute. reflexivity.
  - vm_compute in Hz. discriminate Hz.
Qed.

(** C8. When the job fetcher returns no qualifying job, the mean in
    [get_threshold] divides by zero: [get_threshold], in either variant,
    raises ZeroDivisionError instead of returning a value. *)
Theorem get_threshold_zero_jobs (self : Monitor)
    (environ : option json_text) (client : Client) (fuel : nat)
    (log log' : list Request) :
  (Root._get_jobs self environ client fuel
     (getlist (SPIDERMON_JOBS_COMPARISON_STATES (crawler_settings self))
              ["finished"])
     (getint (SPIDERMON_JOBS_COMPARISON (crawler_settings self))) log
   = (Returns [], log') ->
   Root.get_threshold self environ client fuel log
   = (Raises ZeroDivisionError, log'))
  /\ (Monitors._get_jobs self environ client fuel
        (getlist (SPIDERMON_JOBS_COMPARISON_STATES (crawler_settings self))
                 ["finished"])
        (getint (SPIDERMON_JOBS_COMPARISON (crawler_settings self))) log
      = (Returns [], log') ->
      Monitors.get_threshold self environ client fuel log
      = (Raises ZeroDivisionError, log')).
Proof.
  split; intros Hjobs.
  - rewrite Root_get_threshold_eq, Hjobs. reflexivity.
  - rewrite Monitors_get_threshold_eq, Hjobs. reflexivity.
Qed.

Lemma get_threshold_zero_jobs_witness :
  Root.get_threshold (Examples.monitor Examples.settings_3_09) None
    (Examples.api_of []) 1 []
  = (Raises ZeroDivisionError,
     [{| start := 0; state := ["finished"]; count := 3; has_tag := None |}]).
Proof.
  apply (get_threshold_zero_jobs (Examples.monitor Examples.settings_3_09)
           None (Examples.api_of []) 1 []).
  vm_compute. reflexivity.
Defined.

(** ** Pagination *)






Lemma filter_shorter (f : Job -> bool) (l : list Job) :
  (length (List.filter f l) < length l)%nat ->
  exists job : Job, job ∈ l /\ f job = false.
Proof.
  induction l as [|x l IH]; cbn; [lia|].
  destruct (f x) eqn:Hx; cbn.
  - intros Hlt. destruct IH as (job & Hin & Hf); [lia|].
    exists job. split; [by right|done].
  - intros _. exists x. split; [by left|done].
Qed.

Lemma Root_for_job_in_filter (close_reasons : list string)
    (page : list Job) :
  forall total : list Job,
    Root.for_job_in close_reasons page total
    = total ++ List.filter (close_reason_ok close_reasons) page.
Proof.
  induction page as [|job page IH]; intros total.
  - cbn. by rewrite app_nil_r.
  - cbn [Root.for_job_in List.filter]. unfold close_reason_ok at 1.
    destruct (truthy_list close_reasons);
      destruct (opt_in (close_reason job) close_reasons);
      cbn [negb andb orb]; rewrite IH; try done;
      by rewrite <- app_assoc.
Qed.

Lemma Monitors_while_True_bound (client : Client)
    (states tgs close_reasons : list string) (args : gmap string PyVal)
    (n : Z) (fuel : nat) :
  well_behaved client ->
  forall (total : list Job) (st : Z) (jobs : list Job)
         (calls : list Request),
    len total < n ->
    Monitors.while_True client fuel states tgs close_reasons args
      false n total st [] = (Returns jobs, calls) ->
    len jobs <= n
    /\ (len jobs < n ->
        exists req : Request,
          last calls = Some req
          /\ len (client req) < MAX_API_COUNT
          /\ (len (client req) < count req
              \/ (count req < MAX_API_COUNT
                  /\ len (client req) = count req
                  /\ exists job : Job,
                       job ∈ client req
                       /\ close_reason_ok close_reasons job = false))).
Proof.
  intros Hwb. induction fuel as [|fuel IH]; intros total st jobs calls Hlt.
  - discriminate.
  - rewrite Monitors_while_True_eq. cbv zeta.
    rewrite Root_for_job_in_eq, Root_for_job_in_filter.
    set (req := {| start := st; state := states;
                   count := Z.min (n - len total) MAX_API_COUNT;
                   has_tag := or_None tgs |}).
    pose proof (Hwb req) as Hpage.
    assert (Hcount : count req = Z.min (n - len total) MAX_API_COUNT)
      by done.
    clearbody req.
    pose proof (List.filter_length_le (close_reason_ok close_reasons)
                  (client req)) as Hfl.
    assert (Hlen : len (total ++ List.filter (close_reason_ok close_reasons)
                                   (client req))
                   = len total
                     + Z.of_nat (length (List.filter
                                           (close_reason_ok close_reasons)
                                           (client req)))).
    { unfold len. rewrite length_app. lia. }
    destruct (_ || _) eqn:Estop.
    + intros [= <- <-]. rewrite Hlen. unfold len, MAX_API_COUNT in *.
      split; [lia|].
      intros Hfew. exists req. split; [done|].
      apply orb_prop in Estop as [Hs%Z.ltb_lt|Hs%Z.leb_le];
        [|rewrite length_app in Hs; lia].
      split; [done|].
      destruct (Z.lt_ge_cases (Z.of_nat (length (client req)))
                  (count req)) as [Hsh|Hge]; [by left|right].
      split; [lia|]. split; [lia|].
      apply filter_shorter. lia.
    + apply orb_false_elim in Estop as [_ Hs%Z.leb_gt].
      rewrite Monitors_while_True_frame.
      destruct (Monitors.while_True _ _ _ _ _ _ _ _ _ _ [])
        as [o calls'] eqn:Ew. cbn.
      intros [= -> <-].
      destruct (IH _ _ jobs calls' Hs Ew) as [Hle Hlast].
      split; [done|]. intros Hfew.
      destruct (Hlast Hfew) as (r & Hr & Hshort).
      exists r. split; [|done].
      destruct calls' as [|c calls']; [done|]. exact Hr.
Qed.

(** C3 (as the code has it). With a positive wanted number and an API that
    never answers with more records than asked for, the fetcher of the root
    variant returns at most the wanted number of qualifying jobs, and it
    returns fewer only if its last page had fewer than 1000 records and
    either had fewer records than were asked for, or was the answer to a
    call that asked for fewer than 1000 records, got all of them, and held
    a record that did not qualify. *)
Theorem get_jobs_bounded (self : Monitor) (environ : option json_text)
    (client : Client) (fuel : nat) (states : list string) (n : Z)
    (log log' : list Request) (jobs : list Job) :
  0 < n ->
  well_behaved client ->
  Root._get_jobs self environ client fuel states n log
  = (Returns jobs, log') ->
  len jobs <= n
  /\ (len jobs < n ->
      exists (calls : list Request) (req : Request),
        log' = log ++ calls /\ last calls = Some req
        /\ len (client req) < MAX_API_COUNT
        /\ (len (client req) < count req
            \/ (count req < MAX_API_COUNT
                /\ len (client req) = count req
                /\ exists job : Job,
                     job ∈ client req
                     /\ close_reason_ok
                          (getlist (SPIDERMON_JOBS_COMPARISON_CLOSE_REASONS
                                      (crawler_settings self)) []) job
                        = false))).
Proof.
  intros Hn Hwb. rewrite Root_get_jobs_eq.
  destruct (Monitors._get_tags_to_filter self environ) as [tgs| |];
    try discriminate.
  rewrite Monitors_while_True_frame.
  destruct (Monitors.while_True _ _ _ _ _ _ _ _ _ _ []) as [o calls] eqn:Ew.
  cbn. intros [= -> <-].
  assert (H0 : len (@nil Job) < n) by (unfold len; cbn; lia).
  destruct (Monitors_while_True_bound _ _ _ _ _ _ _ Hwb _ _ _ _ H0 Ew)
    as [Hle Hlast].
  split; [done|]. intros Hfew. destruct (Hlast Hfew) as (req & Hr & Hs).
  by exists calls, req.
Qed.

Lemma api_of_well_behaved (db : list Job) :
  well_behaved (Examples.api_of db).
Proof.
  intros req. unfold Examples.api_of, len. rewrite length_take. lia.
Qed.

Lemma get_jobs_bounded_witness :
  len [Examples.job 10 "finished" None] <= 2
  /\ (len [Examples.job 10 "finished" None] < 2 ->
      exists (calls : list Request) (req : Request),
        [{| start := 0; state := ["finished"]; count := 2;
            has_tag := None |}] = [] ++ calls
        /\ last calls = Some req
        /\ len (Examples.api_of Examples.four_jobs req) < MAX_API_COUNT
        /\ (len (Examples.api_of Examples.four_jobs req) < count req
            \/ (count req < MAX_API_COUNT
                /\ len (Examples.api_of Examples.four_jobs req) = count req
                /\ exists job : Job,
                     job ∈ Examples.api_of Examples.four_jobs req
                     /\ close_reason_ok
                          (getlist
                             (SPIDERMON_JOBS_COMPARISON_CLOSE_REASONS
                                (crawler_settings
                                   (Examples.monitor
                                      Examples.settings_2_finished))) [])
                          job = false))).
Proof.
  apply (get_jobs_bounded (Examples.monitor Examples.settings_2_finished)
           None (Examples.api_of Examples.four_jobs) 1 ["finished"] 2 []).
  - lia.
  - apply api_of_well_behaved.
  - vm_compute. reflexivity.
Defined.

(** C3, read with the count requested for the call as the page size, does
    not hold: two jobs are wanted and the API, which holds three finished
    jobs, gives the two records asked for; one of them does not qualify, and
    the fetcher of the root variant returns one job although no call was
    answered with fewer records than it asked for. *)
Lemma fewer_without_short_page : ~ fewer_only_if_short_of_request.
Proof.
  intros H.
  destruct (H (Examples.monitor Examples.settings_2_finished) None
              (Examples.api_of Examples.four_jobs) 1%nat ["finished"] 2 []
              [{| start := 0; state := ["finished"]; count := 2;
                  has_tag := None |}]
              [Examples.job 10 "finished" None])
    as (_ & Hfew).
  - lia.
  - apply api_of_well_behaved.
  - vm_compute. reflexivity.
  - destruct Hfew as (calls & req & Hcalls & Hin & Hshort).
    + unfold len. cbn. lia.
    + cbn in Hcalls. subst calls.
      apply list_elem_of_singleton in Hin. subst req.
      vm_compute in Hshort. discriminate Hshort.
Qed.

(** ** Termination of the pagination loop *)

Lemma for_job_in_terminates (close_reasons : list string)
    (args : gmap string PyVal) (args_enabled : bool) (page : list Job) :
  forall total : list Job,
    Monitors.for_job_in close_reasons args args_enabled page total
    <> OutOfFuel.
Proof.
  induction page as [|job page IH]; intros total; cbn; [done|].
  destruct (_ && _); [apply IH|].
  destruct args_enabled; cbn; [|apply IH].
  unfold Monitors._has_desired_args.
  destruct (_ && _); cbn; [apply IH|].
  destruct (_ && _); cbn; [apply IH|].
  destruct (spider_args job); cbn; [|done].
  destruct (negb _); cbn; [apply IH|].
  destruct (dict_eqb _ _); cbn; apply IH.
Qed.

Lemma Monitors_while_True_head (client : Client) (fuel : nat)
    (states tgs close_reasons : list string) (args : gmap string PyVal)
    (args_enabled : bool) (n : Z) (total : list Job) (st : Z) :
  forall (req : Request) (rest : list Request),
    snd (Monitors.while_True client fuel states tgs close_reasons args
           args_enabled n total st []) = req :: rest ->
    start req = st.
Proof.
  intros req rest. destruct fuel as [|fuel]; [discriminate|].
  rewrite Monitors_while_True_eq. cbv zeta.
  destruct (Monitors.for_job_in _ _ _ _ _); cbn;
    try (by intros [= <- _]).
  destruct (_ || _); cbn; [by intros [= <- _]|].
  rewrite Monitors_while_True_frame. cbn. by intros [= <- _].
Qed.

Lemma Monitors_while_True_terminates (client : Client)
    (states tgs close_reasons : list string) (args : gmap string PyVal)
    (args_enabled : bool) (n N : Z) :
  well_behaved client ->
  holds_records client N ->
  forall (fuel : nat) (k : Z) (total : list Job) (st : Z),
    0 <= k ->
    N - st < MAX_API_COUNT * (k + 1) ->
    (Z.to_nat k < fuel)%nat ->
    fst (Monitors.while_True client fuel states tgs close_reasons args
           args_enabled n total st []) <> OutOfFuel
    /\ (length (snd (Monitors.while_True client fuel states tgs
                       close_reasons args args_enabled n total st []))
        <= Z.to_nat k + 1)%nat
    /\ full_pages_between client
         (snd (Monitors.while_True client fuel states tgs close_reasons
                 args args_enabled n total st [])).
Proof.
  intros Hwb Hrec.
  induction fuel as [|fuel IH]; intros k total st Hk Hst Hfuel; [lia|].
  rewrite Monitors_while_True_eq. cbv zeta.
  set (req := {| start := st; state := states;
                 count := Z.min (n - len total) MAX_API_COUNT;
                 has_tag := or_None tgs |}).
  pose proof (Hwb req) as Hcount. pose proof (Hrec req) as Hleft.
  cbn [count start req] in Hcount, Hleft.
  pose proof (for_job_in_terminates close_reasons args args_enabled
                (client req) total) as Hf.
  destruct (Monitors.for_job_in _ _ _ (client req) total)
    as [total'|e|]; [|cbn; split; [done|split; [lia|done]]|done].
  destruct (_ || _) eqn:Estop; [cbn; split; [done|split; [lia|done]]|].
  apply orb_false_elim in Estop as [Hfull%Z.ltb_ge _].
  unfold MAX_API_COUNT in *.
  assert (Hlen : len (client req) = 1000) by lia.
  rewrite Monitors_while_True_frame. cbn [fst snd].
  assert (Hk' : 0 <= k - 1) by lia.
  assert (Hst' : N - (st + len (client req)) < 1000 * (k - 1 + 1)) by lia.
  assert (Hfuel' : (Z.to_nat (k - 1) < fuel)%nat) by lia.
  destruct (IH (k - 1) total' (st + len (client req)) Hk' Hst' Hfuel')
    as (Hfst & Hcalls & Hpages).
  split; [done|]. split.
  - rewrite length_app. cbn [length app]. lia.
  - cbn [app].
    destruct (snd (Monitors.while_True client fuel states tgs close_reasons
                     args args_enabled n total' (st + len (client req)) []))
      as [|next rest] eqn:Ecalls; [done|].
    cbn [full_pages_between]. unfold MAX_API_COUNT.
    split; [done|]. split; [|done].
    apply Monitors_while_True_head in Ecalls.
    change (start req) with st. lia.
Qed.

Lemma while_True_finishes_within (client : Client)
    (states tgs close_reasons : list string) (args : gmap string PyVal)
    (args_enabled : bool) (n N : Z) (fuel : nat) (log : list Request) :
  0 <= N ->
  well_behaved client ->
  holds_records client N ->
  (Z.to_nat (N / MAX_API_COUNT) < fuel)%nat ->
  finishes_within client N
    (Monitors.while_True client fuel states tgs close_reasons args
       args_enabled n [] 0) log.
Proof.
  intros HN Hwb Hrec Hfuel.
  assert (Hk : 0 <= N / MAX_API_COUNT) by (apply Z.div_pos; done).
  assert (Hst : N - 0 < MAX_API_COUNT * (N / MAX_API_COUNT + 1)).
  { pose proof (Z.div_mod N MAX_API_COUNT ltac:(done)) as Hdm.
    pose proof (Z.mod_pos_bound N MAX_API_COUNT ltac:(done)) as Hb.
    lia. }
  destruct (Monitors_while_True_terminates client states tgs close_reasons
              args args_enabled n N Hwb Hrec fuel (N / MAX_API_COUNT) [] 0
              Hk Hst Hfuel) as (Hfst & Hcalls & Hpages).
  eexists _, _. split; [apply Monitors_while_True_frame|]. done.
Qed.

(** C10. Against an API that holds finitely many records and never answers
    with more records than asked for, the pagination loop of both variants
    ends, by returning or raising, once it has more iterations at its
    disposal than the API has full pages; it makes at most one call more
    than there are full pages, every call but the last was answered with
    exactly 1000 records, and each call after the first asks for the offset
    1000 further than the one before. *)
Theorem get_jobs_terminates (self : Monitor) (environ : option json_text)
    (client : Client) (states : list string) (n N : Z) (fuel : nat)
    (log : list Request) :
  0 <= N ->
  well_behaved client ->
  holds_records client N ->
  (Z.to_nat (N / MAX_API_COUNT) < fuel)%nat ->
  finishes_within client N
    (Monitors._get_jobs self environ client fuel states n) log
  /\ finishes_within client N
       (Root._get_jobs self environ client fuel states n) log.
Proof.
  intros HN Hwb Hrec Hfuel.
  assert (Hnone : forall e : exn,
             finishes_within client N (fun l => (Raises e, l)) log).
  { intros e. exists (Raises e), []. rewrite app_nil_r.
    split; [done|]. split; [done|]. split; [cbn; lia|done]. }
  split; unfold finishes_within.
  - rewrite Monitors_get_jobs_eq.
    destruct (Monitors._get_tags_to_filter self environ) as [tgs|e|] eqn:Et.
    + apply Hnone.
    + apply Hnone.
    + exfalso. revert Et. unfold Monitors._get_tags_to_filter.
      destruct (negb _); [done|].
      destruct (os_environ_get _ _) as [|[[|]|]]; done.
  - rewrite Root_get_jobs_eq.
    destruct (Monitors._get_tags_to_filter self environ) as [tgs|e|] eqn:Et.
    + by apply while_True_finishes_within.
    + apply Hnone.
    + exfalso. revert Et. unfold Monitors._get_tags_to_filter.
      destruct (negb _); [done|].
      destruct (os_environ_get _ _) as [|[[|]|]]; done.
Qed.

Lemma api_of_holds_records (db : list Job) :
  holds_records (Examples.api_of db) (len db).
Proof.
  intros req. unfold Examples.api_of, len.
  rewrite length_take, length_drop. lia.
Qed.

Lemma get_jobs_terminates_witness :
  finishes_within (Examples.api_of Examples.many_jobs)
    (len Examples.many_jobs)
    (Monitors._get_jobs (Examples.monitor Examples.settings_2500) None
       (Examples.api_of Examples.many_jobs) 3 ["finished"] 2500) []
  /\ finishes_within (Examples.api_of Examples.many_jobs)
       (len Examples.many_jobs)
       (Root._get_jobs (Examples.monitor Examples.settings_2500) None
          (Examples.api_of Examples.many_jobs) 3 ["finished"] 2500) [].
Proof.
  apply (get_jobs_terminates (Examples.monitor Examples.settings_2500) None
           (Examples.api_of Examples.many_jobs) ["finished"] 2500
           (len Examples.many_jobs) 3 []).
  - unfold len. lia.
  - apply api_of_well_behaved.
  - apply api_of_holds_records.
  - vm_compute. lia.
Defined.

(** With 2500 jobs wanted and every job qualifying, the fetcher makes three
    calls, asking for 1000, 1000 and 500 records at offsets 0, 1000 and
    2000. *)
Example three_calls :
  let run :=
    Root._get_jobs (Examples.monitor Examples.settings_2500) None
      (Examples.api_of Examples.many_jobs) 3 ["finished"] 2500 [] in
  (fun req => (start req, count req)) <$> snd run
  = [(0, 1000); (1000, 1000); (2000, 500)]
  /\ (let+ jobs := fst run in Returns (len jobs)) = Returns 2500.
Proof. vm_compute. done. Qed.

(** ** The two variants *)

(** C9 does not hold of the code. The monitors variant reads the argument
    settings by two names that its module does not bind: whenever tag
    resolution returns, whatever the enable flag is, its [_get_jobs] and
    its [get_threshold] raise NameError before any API call. With the flag
    absent, two jobs wanted and only finished ones, the root variant makes
    one call and returns a job where the monitors variant raises. *)
Theorem variants_differ (self : Monitor) (environ : option json_text)
    (client : Client) (fuel : nat) (states tgs : list string) (n : Z)
    (log : list Request) :
  Monitors._get_tags_to_filter self environ = Returns tgs ->
  (Monitors._get_jobs self environ client fuel states n log
   = (Raises (NameError "SPIDERMON_JOBS_COMPARISON_ARGUMENTS"), log)
   /\ Monitors.get_threshold self environ client fuel log
      = (Raises (NameError "SPIDERMON_JOBS_COMPARISON_ARGUMENTS"), log))
  /\ Root._get_jobs (Examples.monitor Examples.settings_2_finished) None
       (Examples.api_of Examples.four_jobs) 1 ["finished"] 2 []
     = (Returns [Examples.job 10 "finished" None],
        [{| start := 0; state := ["finished"]; count := 2;
            has_tag := None |}]).
Proof.
  intros Htags. split; [|by vm_compute].
  rewrite Monitors_get_threshold_eq, !Monitors_get_jobs_eq, Htags. done.
Qed.

Lemma variants_differ_witness :
  Monitors._get_jobs (Examples.monitor Examples.settings_2_finished) None
    (Examples.api_of Examples.four_jobs) 1 ["finished"] 2 []
  = (Raises (NameError "SPIDERMON_JOBS_COMPARISON_ARGUMENTS"), [])
  /\ Monitors.get_threshold (Examples.monitor Examples.settings_2_finished)
       None (Examples.api_of Examples.four_jobs) 1 []
     = (Raises (NameError "SPIDERMON_JOBS_COMPARISON_ARGUMENTS"), []).
Proof.
  apply (variants_differ (Examples.monitor Examples.settings_2_finished) None
           (Examples.api_of Examples.four_jobs) 1 ["finished"] [] 2 []).
  reflexivity.
Defined.

(** * Further properties of the code *)

(** ** The argument filter as a function *)

Lemma dict_eqb_empty_l (m : gmap string PyVal) :
  dict_eqb ∅ m = bool_decide (m = ∅).
Proof.
  unfold dict_eqb. rewrite map_to_list_empty, map_size_empty.
  cbn [forallb]. rewrite andb_true_r. case_bool_decide as Hm.
  - subst m. by rewrite map_size_empty.
  - apply Nat.eqb_neq. intros Hs. apply Hm.
    by apply map_size_empty_iff.
Qed.

Lemma has_desired_args_eq (job : Job) (args : gmap string PyVal) :
  Monitors._has_desired_args job args
  = if lacks_spider_args args job then Raises (KeyError "spider_args")
    else Returns (args_equal args job).
Proof.
  unfold Monitors._has_desired_args, lacks_spider_args, args_equal,
    truthy_dict.
  case_bool_decide as Hargs; cbn.
  - subst args. destruct (spider_args job) as [m|]; cbn.
    + rewrite dict_eqb_empty_l. by case_bool_decide.
    + by rewrite dict_eqb_empty_l, bool_decide_eq_true_2.
  - destruct (spider_args job) as [m|]; cbn; [|done].
    destruct (forallb _ _) eqn:Hk; cbn; [done|].
    f_equal. symmetry. apply not_true_is_false. intros Heq.
    apply dict_eqb_spec, dict_equal_dom in Heq.
    assert (Hall : forallb (fun a => bool_decide (a ∈ dom m))
                     (map_to_list args).*1 = true).
    { apply keys_present. intros k. by rewrite Heq. }
    congruence.
Qed.

(** X1. The argument filter raises exactly when arguments are desired and
    the record has no [spider_args] key, and what it raises is the KeyError
    for that key; in every other case it returns a boolean. *)
Theorem has_desired_args_raises (job : Job) (args : gmap string PyVal) :
  (forall e : exn,
     Monitors._has_desired_args job args = Raises e
     <-> args <> ∅ /\ spider_args job = None
         /\ e = KeyError "spider_args")
  /\ (~ (args <> ∅ /\ spider_args job = None) ->
      exists b : bool, Monitors._has_desired_args job args = Returns b).
Proof.
  rewrite has_desired_args_eq. unfold lacks_spider_args.
  case_bool_decide as Hargs; cbn.
  - split; [|by eexists]. intros e. split; [done|]. by intros [? _].
  - destruct (spider_args job) as [m|]; cbn.
    + split; [|by eexists]. intros e. split; [done|].
      by intros (_ & ? & _).
    + split.
      * intros e. split; [by intros [= <-]|]. by intros (_ & _ & ->).
      * intros H. exfalso. by apply H.
Qed.

(** X2. Whenever the argument filter gives an answer, the answer is whether
    the desired arguments equal the record's spider arguments, an absent
    mapping counting as empty; the key-presence test before the comparison
    never changes it. *)
Theorem has_desired_args_is_equality (job : Job) (args : gmap string PyVal)
    (b : bool) :
  Monitors._has_desired_args job args = Returns b ->
  (b = true <-> dict_equal args (default ∅ (spider_args job))).
Proof.
  rewrite has_desired_args_eq.
  destruct (lacks_spider_args args job); [done|].
  intros [= <-]. unfold args_equal. apply dict_eqb_spec.
Qed.

Lemma has_desired_args_is_equality_witness :
  false = true
  <-> dict_equal Examples.full_crawl
        (default ∅ (spider_args Examples.job_C)).
Proof.
  apply (has_desired_args_is_equality Examples.job_C Examples.full_crawl).
  vm_compute. reflexivity.
Defined.

(** ** The loop body as a filter *)

Lemma for_job_in_eq (close_reasons : list string) (args : gmap string PyVal)
    (args_enabled : bool) (page : list Job) :
  forall total : list Job,
    Monitors.for_job_in close_reasons args args_enabled page total
    = if existsb (breaks close_reasons args args_enabled) page
      then Raises (KeyError "spider_args")
      else Returns (total ++ List.filter
                               (passes close_reasons args args_enabled)
                               page).
Proof.
  induction page as [|job page IH]; intros total.
  - cbn. by rewrite app_nil_r.
  - cbn [Monitors.for_job_in existsb List.filter].
    unfold breaks at 1, passes at 1, close_reason_ok.
    destruct (truthy_list close_reasons);
      destruct (opt_in (close_reason job) close_reasons);
      cbn [negb andb orb]; try apply IH.
    all: destruct args_enabled; cbn [negb andb orb outcome_bind].
    all: try (rewrite IH; destruct (existsb _ page); [done|];
              by rewrite <- app_assoc).
    all: rewrite has_desired_args_eq;
      destruct (lacks_spider_args args job); cbn [outcome_bind negb];
      [done|].
    all: destruct (args_equal args job); cbn [negb]; rewrite IH;
      destruct (existsb _ page); try done; by rewrite <- app_assoc.
Qed.

(** X3. The loop body of the monitors variant, on a page: it raises the
    KeyError for [spider_args] exactly when the argument filter is enabled,
    arguments are desired and some record that passes the close-reason test
    has no such key; otherwise it keeps what was accumulated and appends, in
    the order of the page, exactly the records that pass the close-reason
    test and, when the argument filter is enabled, have the desired
    arguments. *)
Theorem for_job_in_filters (close_reasons : list string)
    (args : gmap string PyVal) (args_enabled : bool)
    (page total : list Job) :
  (Monitors.for_job_in close_reasons args args_enabled page total
   = Raises (KeyError "spider_args")
   <-> exists job : Job,
         job ∈ page /\ close_reason_ok close_reasons job = true
         /\ args_enabled = true /\ args <> ∅ /\ spider_args job = None)
  /\ (Monitors.for_job_in close_reasons args args_enabled page total
      <> Raises (KeyError "spider_args") ->
      Monitors.for_job_in close_reasons args args_enabled page total
      = Returns (total ++ List.filter
                            (passes close_reasons args args_enabled) page)).
Proof.
  rewrite for_job_in_eq.
  destruct (existsb _ page) eqn:Hex.
  - split; [|done]. split; [intros _|done].
    apply existsb_exists in Hex as (job & Hin & Hb).
    exists job. unfold breaks, lacks_spider_args in Hb.
    apply andb_prop in Hb as [[Hc He]%andb_prop [Ha Hs]%andb_prop].
    split; [by apply list_elem_of_In|]. split; [done|]. split; [done|].
    split.
    + intros ->. by rewrite bool_decide_eq_true_2 in Ha.
    + by destruct (spider_args job).
  - split; [|done]. split; [done|].
    intros (job & Hin & Hc & -> & Ha & Hs). exfalso.
    apply not_true_iff_false in Hex. apply Hex.
    apply existsb_exists. exists job. split; [by apply list_elem_of_In|].
    unfold breaks, lacks_spider_args. rewrite Hc, Hs.
    by rewrite bool_decide_eq_false_2.
Qed.

Lemma for_job_in_filters_witness :
  Monitors.for_job_in ["finished"] ∅ false Examples.four_jobs []
  = Returns ([] ++ List.filter (passes ["finished"] ∅ false)
                                Examples.four_jobs).
Proof.
  apply (for_job_in_filters ["finished"] ∅ false Examples.four_jobs []).
  vm_compute. discriminate.
Defined.

(** X4. The loop body of the root variant keeps what was accumulated and
    appends, in the order of the page, exactly the records that pass the
    close-reason test; a record without a close reason passes only when no
    close reasons are configured. *)
Theorem Root_loop_body_filters (close_reasons : list string)
    (page total : list Job) :
  Root.for_job_in close_reasons page total
  = total ++ List.filter (close_reason_ok close_reasons) page
  /\ (forall job : Job,
        close_reason job = None ->
        close_reason_ok close_reasons job = true -> close_reasons = []).
Proof.
  split.
  - revert total. induction page as [|job page IH]; intros total.
    + cbn. by rewrite app_nil_r.
    + cbn [Root.for_job_in List.filter]. unfold close_reason_ok at 1.
      destruct (truthy_list close_reasons);
        destruct (opt_in (close_reason job) close_reasons);
        cbn [negb andb orb]; rewrite IH; try done;
        by rewrite <- app_assoc.
  - intros job Hnone. unfold close_reason_ok. rewrite Hnone. cbn.
    rewrite orb_false_r. by destruct close_reasons.
Qed.

(** ** The configuration check, when it passes *)

(** X5. When the target count is present and positive and the threshold is
    present and not at most zero, [run] is the framework's run: same
    outcome, same API calls. *)
Theorem run_configured (self : Monitor) (A : Type) (super_run : M A)
    (log : list Request) :
  ~ target_unset self ->
  ~ threshold_unset self ->
  Monitors.run self super_run log = super_run log
  /\ Root.run self super_run log = super_run log.
Proof.
  unfold target_unset, threshold_unset. intros Ht Hth.
  assert (H : Monitors.run self super_run log = super_run log).
  { unfold Monitors.run.
    destruct (SPIDERMON_JOBS_COMPARISON (crawler_settings self)) as [n|];
      [|exfalso; apply Ht; by left].
    unfold getint in *. cbn in *.
    destruct (Z.leb_spec n 0) as [Hn|Hn]; [exfalso; apply Ht; by right|].
    destruct (SPIDERMON_JOBS_COMPARISON_THRESHOLD (crawler_settings self))
      as [th|]; [|exfalso; apply Hth; by left].
    cbn in *. destruct (PrimFloat.leb th 0); [|done].
    exfalso. apply Hth. by right. }
  split; exact H.
Qed.

Lemma run_configured_witness :
  let self := Examples.monitor Examples.settings_3_09 in
  let super_run :=
    Monitors.get_threshold self None
      (Examples.api_of Examples.jobs_100_200_300) 1 in
  Monitors.run self super_run [] = super_run []
  /\ Root.run self super_run [] = super_run [].
Proof.
  intros self super_run.
  apply (run_configured self Z super_run []).
  - intros [H|H]; [discriminate H|]. vm_compute in H. by apply H.
  - intros [H|H]; [discriminate H|]. vm_compute in H. discriminate H.
Defined.

(** X6. A threshold that is not a number passes the configuration check:
    it is not at most zero, so with a positive target count [run] goes on
    to the framework's run. *)
Theorem run_accepts_nan (self : Monitor) (A : Type) (super_run : M A)
    (log : list Request) :
  ~ target_unset self ->
  SPIDERMON_JOBS_COMPARISON_THRESHOLD (crawler_settings self)
  = Some PrimFloat.nan ->
  Monitors.run self super_run log = super_run log.
Proof.
  unfold target_unset. intros Ht Hnan. unfold Monitors.run.
  destruct (SPIDERMON_JOBS_COMPARISON (crawler_settings self)) as [n|];
    [|exfalso; apply Ht; by left].
  unfold getint in *. cbn in *.
  destruct (Z.leb_spec n 0) as [Hn|Hn]; [exfalso; apply Ht; by right|].
  rewrite Hnan. reflexivity.
Qed.

Lemma run_accepts_nan_witness :
  let self :=
    Examples.monitor
      (Examples.settings (Some 3) (Some PrimFloat.nan) None None None None) in
  Monitors.run self (ret 0 : M Z) [] = (Returns 0, []).
Proof.
  intros self. apply (run_accepts_nan self Z (ret 0) []).
  - intros [H|H]; [discriminate H|]. vm_compute in H. by apply H.
  - reflexivity.
Defined.

(** ** Tag resolution: errors and what the result depends on *)

(** X7. On job data that is unset, does not decode, or is an object whose
    tags are absent or a list of strings, tag resolution raises only the
    decoding error, and it raises it exactly when desired tags are
    configured and the text does not decode; in every other case it
    returns. *)
Theorem tags_to_filter_raises (self : Monitor)
    (environ : option json_text) :
  let desired :=
    getlist (SPIDERMON_JOBS_COMPARISON_TAGS (crawler_settings self)) [] in
  (forall e : exn,
     Monitors._get_tags_to_filter self environ = Raises e
     <-> e = JSONDecodeError /\ desired <> [] /\ environ = Some Malformed)
  /\ (~ (desired <> [] /\ environ = Some Malformed) ->
      exists r : list string,
        Monitors._get_tags_to_filter self environ = Returns r).
Proof.
  intros desired. unfold Monitors._get_tags_to_filter. fold desired.
  destruct desired as [|d desired']; cbn.
  - split; [|by eexists]. intros e. split; [done|]. by intros (_ & ? & _).
  - destruct environ as [[|[[|c current]|]]|]; cbn.
    + split.
      * intros e. split; [by intros [= <-]|]. by intros (-> & _).
      * intros H. exfalso. by apply H.
    + split; [|by eexists]. intros e. split; [done|]. by intros (_ & _ & ?).
    + split; [|by eexists]. intros e. split; [done|]. by intros (_ & _ & ?).
    + split; [|by eexists]. intros e. split; [done|]. by intros (_ & _ & ?).
    + split; [|by eexists]. intros e. split; [done|]. by intros (_ & _ & ?).
Qed.

(** X8. The resolved tag filter depends only on which tags are desired and
    which are current: the order in which they are listed and repetitions
    among them do not change it. *)
Theorem tags_to_filter_set (self self' : Monitor)
    (current current' : list string) :
  (forall t : string,
     t ∈ getlist (SPIDERMON_JOBS_COMPARISON_TAGS (crawler_settings self)) []
     <-> t ∈ getlist (SPIDERMON_JOBS_COMPARISON_TAGS
                        (crawler_settings self')) []) ->
  (forall t : string, t ∈ current <-> t ∈ current') ->
  Monitors._get_tags_to_filter self (env_with_tags current)
  = Monitors._get_tags_to_filter self' (env_with_tags current').
Proof.
  unfold Monitors._get_tags_to_filter.
  generalize (getlist (SPIDERMON_JOBS_COMPARISON_TAGS
                         (crawler_settings self)) []).
  generalize (getlist (SPIDERMON_JOBS_COMPARISON_TAGS
                         (crawler_settings self')) []).
  intros d' d Hd Hc.
  assert (Hnil : forall l l' : list string,
             (forall t, t ∈ l <-> t ∈ l') -> l = [] -> l' = []).
  { intros l [|x l'] H ->; [done|].
    exfalso. eapply not_elem_of_nil, H. by left. }
  destruct d as [|x d].
  { by rewrite (Hnil [] d' Hd eq_refl). }
  destruct d' as [|x' d'].
  { exfalso. eapply not_elem_of_nil, Hd. by left. }
  cbn -[list_to_set]. destruct current as [|c current].
  { by rewrite (Hnil [] current' Hc eq_refl). }
  destruct current' as [|c' current'].
  { exfalso. eapply not_elem_of_nil, Hc. by left. }
  do 2 f_equal. apply set_eq. intros t.
  rewrite !elem_of_intersection, !elem_of_list_to_set. by rewrite Hd, Hc.
Qed.

Lemma tags_to_filter_set_witness :
  Monitors._get_tags_to_filter (Examples.monitor Examples.settings_tags_ab)
    (env_with_tags ["b"; "c"])
  = Monitors._get_tags_to_filter
      (Examples.monitor
         (Examples.settings None None (Some ["b"; "a"; "b"]) None None None))
      (env_with_tags ["c"; "c"; "b"]).
Proof.
  apply (tags_to_filter_set (Examples.monitor Examples.settings_tags_ab)
           (Examples.monitor
              (Examples.settings None None (Some ["b"; "a"; "b"]) None None
                 None)) ["b"; "c"] ["c"; "c"; "b"]).
  - intros t. cbn. rewrite !elem_of_cons, !elem_of_nil. tauto.
  - intros t. rewrite !elem_of_cons, !elem_of_nil. tauto.
Defined.

(** ** The calls of one retrieval and what is returned *)

Lemma pages_cons (client : Client) (req : Request) (calls : list Request) :
  pages client (req :: calls) = client req ++ pages client calls.
Proof. reflexivity. Qed.

Lemma Monitors_while_True_result (client : Client)
    (states tgs close_reasons : list string) (args : gmap string PyVal)
    (args_enabled : bool) (n : Z) (fuel : nat) :
  forall (total : list Job) (st : Z) (jobs : list Job)
         (calls : list Request),
    Monitors.while_True client fuel states tgs close_reasons args
      args_enabled n total st [] = (Returns jobs, calls) ->
    jobs = total ++ List.filter (passes close_reasons args args_enabled)
                                (pages client calls).
Proof.
  induction fuel as [|fuel IH]; intros total st jobs calls; [done|].
  rewrite Monitors_while_True_eq. cbv zeta. rewrite for_job_in_eq.
  set (req := {| start := st; state := states;
                 count := Z.min (n - len total) MAX_API_COUNT;
                 has_tag := or_None tgs |}).
  destruct (existsb _ (client req)); [done|].
  destruct (_ || _).
  - intros [= <- <-]. rewrite pages_cons. unfold pages. cbn.
    by rewrite app_nil_r.
  - rewrite Monitors_while_True_frame.
    destruct (Monitors.while_True _ _ _ _ _ _ _ _ _ _ [])
      as [o calls'] eqn:Ew. cbn.
    intros [= -> <-]. apply IH in Ew. rewrite Ew, pages_cons.
    by rewrite List.filter_app, app_assoc.
Qed.

(** X9. What the fetcher of the root variant returns is the close-reason
    filter applied to all the records it received, page after page in the
    order received: no record that passes is dropped, none is kept that
    does not pass, and the order of the API is kept across pages. *)
Theorem get_jobs_is_filter (self : Monitor) (environ : option json_text)
    (client : Client) (fuel : nat) (states : list string) (n : Z)
    (log log' : list Request) (jobs : list Job) :
  Root._get_jobs self environ client fuel states n log
  = (Returns jobs, log') ->
  exists calls : list Request,
    log' = log ++ calls
    /\ jobs = List.filter
                (close_reason_ok
                   (getlist (SPIDERMON_JOBS_COMPARISON_CLOSE_REASONS
                               (crawler_settings self)) []))
                (pages client calls).
Proof.
  rewrite Root_get_jobs_eq.
  destruct (Monitors._get_tags_to_filter self environ) as [tgs| |];
    try discriminate.
  rewrite Monitors_while_True_frame.
  destruct (Monitors.while_True _ _ _ _ _ _ _ _ _ _ []) as [o calls] eqn:Ew.
  cbn. intros [= -> <-]. exists calls. split; [done|].
  apply Monitors_while_True_result in Ew. rewrite Ew. cbn [app].
  apply List.filter_ext. intros job. unfold passes. cbn.
  apply andb_true_r.
Qed.

Lemma get_jobs_is_filter_witness :
  exists calls : list Request,
    [{| start := 0; state := ["finished"]; count := 2; has_tag := None |}]
    = [] ++ calls
    /\ [Examples.job 10 "finished" None]
       = List.filter
           (close_reason_ok
              (getlist (SPIDERMON_JOBS_COMPARISON_CLOSE_REASONS
                          (crawler_settings
                             (Examples.monitor
                                Examples.settings_2_finished))) []))
           (pages (Examples.api_of Examples.four_jobs) calls).
Proof.
  apply (get_jobs_is_filter (Examples.monitor Examples.settings_2_finished)
           None (Examples.api_of Examples.four_jobs) 1 ["finished"] 2 []).
  vm_compute. reflexivity.
Defined.

Lemma Monitors_while_True_contiguous (client : Client)
    (states tgs close_reasons : list string) (args : gmap string PyVal)
    (args_enabled : bool) (n : Z) (fuel : nat) :
  forall (total : list Job) (st : Z),
    contiguous client st
      (snd (Monitors.while_True client fuel states tgs close_reasons args
              args_enabled n total st [])).
Proof.
  induction fuel as [|fuel IH]; intros total st; [done|].
  rewrite Monitors_while_True_eq. cbv zeta.
  destruct (Monitors.for_job_in _ _ _ _ _) as [total'| |]; cbn; try done.
  destruct (_ || _); cbn; [done|].
  rewrite Monitors_while_True_frame. cbn. split; [done|]. apply IH.
Qed.

Lemma Monitors_while_True_counts (client : Client)
    (states tgs close_reasons : list string) (args : gmap string PyVal)
    (args_enabled : bool) (n : Z) (fuel : nat) :
  forall (total : list Job) (st : Z),
    (0 < n -> len total < n) ->
    Forall (fun req => count req <= MAX_API_COUNT /\ count req <= n
                       /\ (0 < n -> 1 <= count req))
      (snd (Monitors.while_True client fuel states tgs close_reasons args
              args_enabled n total st [])).
Proof.
  induction fuel as [|fuel IH]; intros total st Htotal; [constructor|].
  rewrite Monitors_while_True_eq. cbv zeta.
  assert (Hreq : Z.min (n - len total) MAX_API_COUNT <= MAX_API_COUNT
                 /\ Z.min (n - len total) MAX_API_COUNT <= n
                 /\ (0 < n -> 1 <= Z.min (n - len total) MAX_API_COUNT)).
  { unfold MAX_API_COUNT, len in *. lia. }
  destruct (Monitors.for_job_in _ _ _ _ _) as [total'| |]; cbn;
    try (constructor; [done|constructor]).
  destruct (_ || _) eqn:Estop; cbn; [constructor; [done|constructor]|].
  apply orb_false_elim in Estop as [_ Hs%Z.leb_gt].
  rewrite Monitors_while_True_frame. cbn. constructor; [done|].
  apply IH. done.
Qed.

(** X10. Whatever the outcome of the fetcher, in either variant, its first
    call asks for offset 0 and every later call asks for the offset that is
    the number of records received by the calls before it. *)
Theorem get_jobs_contiguous (self : Monitor) (environ : option json_text)
    (client : Client) (fuel : nat) (states : list string) (n : Z)
    (log : list Request) :
  (exists calls : list Request,
     snd (Monitors._get_jobs self environ client fuel states n log)
     = log ++ calls
     /\ contiguous client 0 calls
     /\ forall (before after : list Request) (req : Request),
          calls = before ++ req :: after ->
          start req = len (pages client before))
  /\ (exists calls : list Request,
        snd (Root._get_jobs self environ client fuel states n log)
        = log ++ calls
        /\ contiguous client 0 calls
        /\ forall (before after : list Request) (req : Request),
             calls = before ++ req :: after ->
             start req = len (pages client before)).
Proof.
  assert (Hsplit : forall (calls : list Request) (st : Z),
             contiguous client st calls ->
             forall (before after : list Request) (req : Request),
               calls = before ++ req :: after ->
               start req = st + len (pages client before)).
  { intros calls st Hc before. revert calls st Hc.
    induction before as [|b before IH]; intros calls st Hc after req ->.
    - destruct Hc as [-> _]. unfold len. cbn. lia.
    - destruct Hc as [Hb Hc]. rewrite (IH _ _ Hc after req eq_refl).
      rewrite pages_cons. unfold len. rewrite length_app. lia. }
  assert (Hnone : forall o : outcome (list Job),
             exists calls : list Request,
               snd (o, log) = log ++ calls
               /\ contiguous client 0 calls
               /\ forall (before after : list Request) (req : Request),
                    calls = before ++ req :: after ->
                    start req = len (pages client before)).
  { intros o. exists []. cbn. rewrite app_nil_r. split; [done|].
    split; [done|]. by intros [|??] ???. }
  split.
  - rewrite Monitors_get_jobs_eq.
    destruct (Monitors._get_tags_to_filter self environ); apply Hnone.
  - rewrite Root_get_jobs_eq.
    destruct (Monitors._get_tags_to_filter self environ) as [tgs|e|];
      [|apply Hnone..].
    rewrite Monitors_while_True_frame. cbn. eexists. split; [done|].
    pose proof (Monitors_while_True_contiguous client states tgs
                  (getlist (SPIDERMON_JOBS_COMPARISON_CLOSE_REASONS
                              (crawler_settings self)) [])
                  ∅ false n fuel [] 0) as Hc.
    split; [exact Hc|]. intros before after req Heq.
    by rewrite (Hsplit _ _ Hc before after req Heq).
Qed.

(** X11. Whatever the outcome of the fetcher, in either variant, no call
    asks for more than 1000 records or for more than the wanted number, and
    with a positive wanted number every call asks for at least one
    record. *)
Theorem get_jobs_counts (self : Monitor) (environ : option json_text)
    (client : Client) (fuel : nat) (states : list string) (n : Z)
    (log : list Request) :
  (exists calls : list Request,
     snd (Monitors._get_jobs self environ client fuel states n log)
     = log ++ calls
     /\ Forall (fun req => count req <= MAX_API_COUNT /\ count req <= n
                           /\ (0 < n -> 1 <= count req)) calls)
  /\ (exists calls : list Request,
        snd (Root._get_jobs self environ client fuel states n log)
        = log ++ calls
        /\ Forall (fun req => count req <= MAX_API_COUNT /\ count req <= n
                              /\ (0 < n -> 1 <= count req)) calls).
Proof.
  split.
  - rewrite Monitors_get_jobs_eq.
    destruct (Monitors._get_tags_to_filter self environ);
      exists []; cbn; by rewrite app_nil_r.
  - rewrite Root_get_jobs_eq.
    destruct (Monitors._get_tags_to_filter self environ) as [tgs|e|].
    + rewrite Monitors_while_True_frame. cbn. eexists. split; [done|].
      apply Monitors_while_True_counts. unfold len. cbn. lia.
    + exists []. cbn. by rewrite app_nil_r.
    + exists []. cbn. by rewrite app_nil_r.
Qed.

(** ** Small targets and missing configuration *)

Lemma Monitors_while_True_single (client : Client)
    (states tgs close_reasons : list string) (args : gmap string PyVal)
    (args_enabled : bool) (n : Z) (fuel : nat) :
  n < MAX_API_COUNT ->
  well_behaved client ->
  let req := {| start := 0; state := states; count := n;
                has_tag := or_None tgs |} in
  Monitors.while_True client (S fuel) states tgs close_reasons args
    args_enabled n [] 0 []
  = (Monitors.for_job_in close_reasons args args_enabled (client req) [],
     [req]).
Proof.
  intros Hn Hwb req. rewrite Monitors_while_True_eq. cbv zeta.
  assert (Hcount : Z.min (n - len (@nil Job)) MAX_API_COUNT = n).
  { unfold len, MAX_API_COUNT in *. cbn. lia. }
  rewrite Hcount. fold req.
  pose proof (Hwb req) as Hpage. change (count req) with n in Hpage.
  destruct (Monitors.for_job_in _ _ _ (client req) []); try done.
  assert (Hshort : (len (client req) <? MAX_API_COUNT) = true).
  { apply Z.ltb_lt. unfold MAX_API_COUNT in *. lia. }
  by rewrite Hshort.
Qed.

(** X12. With fewer than 1000 jobs wanted and an API that never answers
    with more records than asked for, the fetcher of the root variant makes
    exactly one call, for offset 0 and the wanted number, and what it gives
    is the loop body applied to that single page: there is no second page,
    whether or not enough records qualified. *)
Theorem get_jobs_single_call (self : Monitor) (environ : option json_text)
    (client : Client) (fuel : nat) (states tgs : list string) (n : Z)
    (log : list Request) :
  n < MAX_API_COUNT ->
  well_behaved client ->
  Monitors._get_tags_to_filter self environ = Returns tgs ->
  let req := {| start := 0; state := states; count := n;
                has_tag := or_None tgs |} in
  Root._get_jobs self environ client (S fuel) states n log
  = (Returns
       (Root.for_job_in
          (getlist (SPIDERMON_JOBS_COMPARISON_CLOSE_REASONS
                      (crawler_settings self)) [])
          (client req) []),
     log ++ [req]).
Proof.
  intros Hn Hwb Htags req.
  rewrite Root_get_jobs_eq, Htags, Monitors_while_True_frame.
  rewrite Monitors_while_True_single by done.
  by rewrite Root_for_job_in_eq.
Qed.

Lemma get_jobs_single_call_witness :
  let req := {| start := 0; state := ["finished"]; count := 2;
                has_tag := or_None [] |} in
  Root._get_jobs (Examples.monitor Examples.settings_2_finished) None
    (Examples.api_of Examples.four_jobs) 5 ["finished"] 2 []
  = (Returns
       (Root.for_job_in
          (getlist (SPIDERMON_JOBS_COMPARISON_CLOSE_REASONS
                      (crawler_settings
                         (Examples.monitor Examples.settings_2_finished)))
                   [])
          (Examples.api_of Examples.four_jobs req) []),
     [] ++ [req]).
Proof.
  apply (get_jobs_single_call (Examples.monitor Examples.settings_2_finished)
           None (Examples.api_of Examples.four_jobs) 4 ["finished"] [] 2 []).
  - reflexivity.
  - apply api_of_well_behaved.
  - reflexivity.
Defined.

(** X13. [get_threshold] of the root variant does not check the
    configuration itself: when the target count is absent or not positive
    and the API never answers with more records than asked for, it still
    makes one call, asking for that count, gets no record and raises
    ZeroDivisionError. *)
Theorem get_threshold_unconfigured (self : Monitor)
    (environ : option json_text) (client : Client) (fuel : nat)
    (tgs : list string) (log : list Request) :
  getint (SPIDERMON_JOBS_COMPARISON (crawler_settings self)) <= 0 ->
  well_behaved client ->
  Monitors._get_tags_to_filter self environ = Returns tgs ->
  Root.get_threshold self environ client (S fuel) log
  = (Raises ZeroDivisionError,
     log ++ [{| start := 0;
                state := getlist (SPIDERMON_JOBS_COMPARISON_STATES
                                    (crawler_settings self)) ["finished"];
                count := getint (SPIDERMON_JOBS_COMPARISON
                                   (crawler_settings self));
                has_tag := or_None tgs |}]).
Proof.
  intros Hn Hwb Htags.
  rewrite Root_get_threshold_eq, Root_get_jobs_eq, Htags,
    Monitors_while_True_frame.
  rewrite Monitors_while_True_single; [|unfold MAX_API_COUNT; lia|done].
  cbn [fst snd].
  set (req := {| start := 0; state := _; count := _; has_tag := _ |}).
  pose proof (Hwb req) as Hpage.
  change (count req)
    with (getint (SPIDERMON_JOBS_COMPARISON (crawler_settings self)))
    in Hpage.
  assert (Hnil : client req = []).
  { destruct (client req); [done|]. unfold len in Hpage. cbn in Hpage. lia. }
  rewrite Hnil. reflexivity.
Qed.

Lemma get_threshold_unconfigured_witness :
  Root.get_threshold (Examples.monitor Examples.settings0) None
    (Examples.api_of Examples.four_jobs) 1 []
  = (Raises ZeroDivisionError,
     [] ++ [{| start := 0; state := ["finished"]; count := 0;
               has_tag := or_None [] |}]).
Proof.
  apply (get_threshold_unconfigured (Examples.monitor Examples.settings0)
           None (Examples.api_of Examples.four_jobs) 0 [] []).
  - reflexivity.
  - apply api_of_well_behaved.
  - reflexivity.
Defined.

(** ** Errors across the functions *)

(** X14. An error of tag resolution ends the fetcher and [get_threshold]
    with that error before any API call is made. *)
Theorem tags_error_propagates (self : Monitor) (environ : option json_text)
    (client : Client) (fuel : nat) (states : list string) (n : Z)
    (log : list Request) (e : exn) :
  Monitors._get_tags_to_filter self environ = Raises e ->
  Monitors._get_jobs self environ client fuel states n log = (Raises e, log)
  /\ Root._get_jobs self environ client fuel states n log = (Raises e, log)
  /\ Monitors.get_threshold self environ client fuel log = (Raises e, log)
  /\ Root.get_threshold self environ client fuel log = (Raises e, log).
Proof.
  intros Htags.
  rewrite Monitors_get_threshold_eq, Root_get_threshold_eq.
  rewrite !Monitors_get_jobs_eq, !Root_get_jobs_eq, Htags. done.
Qed.

Lemma tags_error_propagates_witness :
  Monitors.get_threshold (Examples.monitor Examples.settings_tags_ab)
    (Some Malformed) (Examples.api_of Examples.four_jobs) 3 []
  = (Raises JSONDecodeError, []).
Proof.
  apply (tags_error_propagates (Examples.monitor Examples.settings_tags_ab)
           (Some Malformed) (Examples.api_of Examples.four_jobs) 3 [] 0 []
           JSONDecodeError).
  reflexivity.
Defined.

Lemma Monitors_while_True_no_filter_error (client : Client)
    (states tgs close_reasons : list string) (args : gmap string PyVal)
    (n : Z) (fuel : nat) :
  forall (total : list Job) (st : Z) (e : exn),
    fst (Monitors.while_True client fuel states tgs close_reasons args
           false n total st []) <> Raises e.
Proof.
  induction fuel as [|fuel IH]; intros total st e; [done|].
  rewrite Monitors_while_True_eq. cbv zeta. rewrite Root_for_job_in_eq.
  destruct (_ || _); [done|].
  rewrite Monitors_while_True_frame. apply IH.
Qed.

(** X15. While every API call is answered with a page, the fetcher of the
    root variant raises nothing of its own: if it raises, the error is that
    of tag resolution and no call was made. *)
Theorem get_jobs_raises_only_tags (self : Monitor)
    (environ : option json_text) (client : Client) (fuel : nat)
    (states : list string) (n : Z) (log log' : list Request) (e : exn) :
  Root._get_jobs self environ client fuel states n log = (Raises e, log') ->
  Monitors._get_tags_to_filter self environ = Raises e /\ log' = log.
Proof.
  rewrite Root_get_jobs_eq.
  destruct (Monitors._get_tags_to_filter self environ) as [tgs|e'|];
    [|by intros [= -> ->]|done].
  rewrite Monitors_while_True_frame. intros [= Hfst _]. exfalso.
  by eapply Monitors_while_True_no_filter_error.
Qed.

Lemma get_jobs_raises_only_tags_witness :
  Monitors._get_tags_to_filter (Examples.monitor Examples.settings_tags_ab)
    (Some Malformed) = Raises JSONDecodeError
  /\ @nil Request = [].
Proof.
  apply (get_jobs_raises_only_tags
           (Examples.monitor Examples.settings_tags_ab) (Some Malformed)
           (Examples.api_of Examples.four_jobs) 3 ["finished"] 2 [] []
           JSONDecodeError).
  reflexivity.
Defined.

(** ** The sum of the item counts *)

(** X16. In the mean, a record without an [items] key adds nothing to the
    sum but is counted among the jobs: the sum is that of the records that
    have the key, and the sum of a list is the sum of its parts. *)
Theorem sum_items_missing (jobs jobs' : list Job) :
  Monitors.sum_items jobs
  = Monitors.sum_items
      (List.filter (fun job => in_attributes (items job)) jobs)
  /\ Monitors.sum_items (jobs ++ jobs')
     = Monitors.sum_items jobs + Monitors.sum_items jobs'
  /\ Root.sum_items jobs = Monitors.sum_items jobs.
Proof.
  split; [|split; [|reflexivity]].
  - induction jobs as [|job jobs IH]; [done|].
    cbn [Monitors.sum_items foldr List.filter].
    fold (Monitors.sum_items jobs). rewrite IH.
    destruct (items job) as [z|] eqn:Ei; cbn [in_attributes].
    + cbn [Monitors.sum_items foldr]. by rewrite Ei.
    + change (default 0 None) with 0. reflexivity.
  - induction jobs as [|job jobs IH]; [done|].
    cbn [Monitors.sum_items foldr app].
    fold (Monitors.sum_items (jobs ++ jobs')) (Monitors.sum_items jobs).
    rewrite IH. lia.
Qed.

(** ** Retrieval without client-side filters *)

Lemma for_job_in_no_filter (args : gmap string PyVal) (page : list Job) :
  forall total : list Job,
    Monitors.for_job_in [] args false page total = Returns (total ++ page).
Proof.
  induction page as [|job page IH]; intros total; cbn.
  - by rewrite app_nil_r.
  - rewrite IH. by rewrite <- app_assoc.
Qed.

Lemma Monitors_while_True_no_filter (client : Client)
    (states tgs : list string) (args : gmap string PyVal) (n : Z) :
  forall (fuel : nat) (k : Z) (total : list Job) (st : Z),
    0 <= k ->
    n - len total <= MAX_API_COUNT * (k + 1) ->
    (Z.to_nat k < fuel)%nat ->
    (exists jobs : list Job,
       fst (Monitors.while_True client fuel states tgs [] args false n
              total st []) = Returns jobs)
    /\ (length (snd (Monitors.while_True client fuel states tgs [] args
                       false n total st []))
        <= Z.to_nat k + 1)%nat.
Proof.
  induction fuel as [|fuel IH]; intros k total st Hk Hleft Hfuel; [lia|].
  rewrite Monitors_while_True_eq. cbv zeta. rewrite for_job_in_no_filter.
  set (req := {| start := st; state := states;
                 count := Z.min (n - len total) MAX_API_COUNT;
                 has_tag := or_None tgs |}).
  destruct (_ || _) eqn:Estop; cbn [fst snd].
  - split; [by eexists|]. cbn. lia.
  - apply orb_false_elim in Estop as [Hfull%Z.ltb_ge Hs%Z.leb_gt].
    unfold len in Hs. rewrite length_app in Hs.
    unfold MAX_API_COUNT, len in *.
    assert (Hk' : 0 <= k - 1) by lia.
    assert (Hleft' : n - Z.of_nat (length (total ++ client req))
                     <= 1000 * (k - 1 + 1)).
    { rewrite length_app. lia. }
    assert (Hfuel' : (Z.to_nat (k - 1) < fuel)%nat) by lia.
    rewrite Monitors_while_True_frame. cbn [fst snd].
    destruct (IH (k - 1) (total ++ client req)
                (st + Z.of_nat (length (client req))) Hk' Hleft' Hfuel')
      as [Hret Hcalls].
    split; [exact Hret|]. rewrite length_app. cbn [length app]. lia.
Qed.

(** X17. With no close reasons configured, the fetcher of the root variant
    ends against any API, finite or not: once it has more iterations at its
    disposal than the wanted number has full thousands, it either raises
    the error of tag resolution without a call or returns after at most
    that many calls plus one. *)
Theorem get_jobs_no_filter_terminates (self : Monitor)
    (environ : option json_text) (client : Client) (fuel : nat)
    (states : list string) (n : Z) (log : list Request) :
  getlist (SPIDERMON_JOBS_COMPARISON_CLOSE_REASONS (crawler_settings self)) []
  = [] ->
  (Z.to_nat (n / MAX_API_COUNT) < fuel)%nat ->
  (exists e : exn,
     Monitors._get_tags_to_filter self environ = Raises e
     /\ Root._get_jobs self environ client fuel states n log
        = (Raises e, log))
  \/ (exists (jobs : list Job) (calls : list Request),
        Root._get_jobs self environ client fuel states n log
        = (Returns jobs, log ++ calls)
        /\ (length calls <= Z.to_nat (n / MAX_API_COUNT) + 1)%nat).
Proof.
  intros Hcr Hfuel. rewrite Root_get_jobs_eq, Hcr.
  destruct (Monitors._get_tags_to_filter self environ) as [tgs|e|] eqn:Et.
  - right. rewrite Monitors_while_True_frame.
    destruct (Monitors_while_True_no_filter client states tgs ∅ n fuel
                (Z.max 0 (n / MAX_API_COUNT)) [] 0) as [[jobs Hret] Hcalls].
    + lia.
    + unfold len, MAX_API_COUNT. cbn [length].
      pose proof (Z.div_mod n 1000 ltac:(done)) as Hdm.
      pose proof (Z.mod_pos_bound n 1000 ltac:(done)) as Hb. lia.
    + lia.
    + exists jobs. eexists. rewrite Hret. split; [done|]. lia.
  - left. by exists e.
  - exfalso. revert Et. unfold Monitors._get_tags_to_filter.
    destruct (negb _); [done|].
    destruct (os_environ_get _ _) as [|[[|]|]]; done.
Qed.

Lemma get_jobs_no_filter_terminates_witness :
  (exists e : exn,
     Monitors._get_tags_to_filter (Examples.monitor Examples.settings_2500)
       None = Raises e
     /\ Root._get_jobs (Examples.monitor Examples.settings_2500) None
          (Examples.api_of Examples.many_jobs) 3 ["finished"] 2500 []
        = (Raises e, []))
  \/ (exists (jobs : list Job) (calls : list Request),
        Root._get_jobs (Examples.monitor Examples.settings_2500) None
          (Examples.api_of Examples.many_jobs) 3 ["finished"] 2500 []
        = (Returns jobs, [] ++ calls)
        /\ (length calls <= Z.to_nat (2500 / MAX_API_COUNT) + 1)%nat).
Proof.
  apply (get_jobs_no_filter_terminates
           (Examples.monitor Examples.settings_2500) None
           (Examples.api_of Examples.many_jobs) 3 ["finished"] 2500 []).
  - reflexivity.
  - vm_compute. lia.
Defined.

Lemma Monitors_while_True_api_of (db : list Job)
    (states tgs : list string) (args : gmap string PyVal) (n : Z) :
  forall (fuel : nat) (k : Z) (total : list Job) (st : Z),
    0 <= k ->
    0 <= st < n ->
    total = take (Z.to_nat st) db ->
    len total = st ->
    n - st <= MAX_API_COUNT * (k + 1) ->
    (Z.to_nat k < fuel)%nat ->
    fst (Monitors.while_True (Examples.api_of db) fuel states tgs [] args
           false n total st [])
    = Returns (take (Z.to_nat n) db).
Proof.
  induction fuel as [|fuel IH];
    intros k total st Hk Hst Htotal Hlen Hleft Hfuel; [lia|].
  rewrite Monitors_while_True_eq. cbv zeta. rewrite for_job_in_no_filter.
  rewrite Hlen.
  set (c := Z.min (n - st) MAX_API_COUNT).
  set (req := {| start := st; state := states; count := c;
                 has_tag := or_None tgs |}).
  assert (Hpage : Examples.api_of db req
                  = take (Z.to_nat c) (drop (Z.to_nat st) db)) by done.
  assert (Htotal' : total ++ Examples.api_of db req
                    = take (Z.to_nat st + Z.to_nat c) db).
  { rewrite Hpage, Htotal. apply take_take_drop. }
  assert (Hplen : len (Examples.api_of db req)
                  = Z.of_nat (Z.to_nat c `min` (length db - Z.to_nat st))).
  { unfold len. by rewrite Hpage, length_take, length_drop. }
  assert (Hdb : (Z.to_nat st <= length db)%nat).
  { unfold len in Hlen. rewrite Htotal, length_take in Hlen. lia. }
  assert (Htlen : len (total ++ Examples.api_of db req)
                  = st + len (Examples.api_of db req)).
  { unfold len in *. rewrite length_app. lia. }
  unfold MAX_API_COUNT in *.
  destruct (_ || _) eqn:Estop; cbn [fst snd].
  - f_equal. rewrite Htotal'.
    destruct (Z.le_gt_cases (n - st) 1000) as [Hsmall|Hbig].
    + f_equal. unfold c. lia.
    + apply orb_prop in Estop as [Hs%Z.ltb_lt|Hs%Z.leb_le].
      * rewrite !take_ge; [done|unfold c in *; lia..].
      * unfold c in *. lia.
  - apply orb_false_elim in Estop as [Hfull%Z.ltb_ge Hs%Z.leb_gt].
    rewrite Monitors_while_True_frame. cbn [fst].
    assert (Hc : c = 1000) by (unfold c in *; lia).
    apply (IH (k - 1)); [lia|lia| |lia|lia|lia].
    rewrite Htotal'. f_equal. lia.
Qed.

(** X18. Against an API that serves a stored sequence of jobs, with no close
    reasons configured and a positive wanted number, the fetcher of the root
    variant returns exactly the first wanted-number jobs of the sequence,
    or all of them if there are fewer, once it has more iterations at its
    disposal than the wanted number has full thousands. *)
Theorem get_jobs_takes_first (self : Monitor) (environ : option json_text)
    (db : list Job) (fuel : nat) (states tgs : list string) (n : Z)
    (log : list Request) :
  getlist (SPIDERMON_JOBS_COMPARISON_CLOSE_REASONS (crawler_settings self)) []
  = [] ->
  Monitors._get_tags_to_filter self environ = Returns tgs ->
  0 < n ->
  (Z.to_nat (n / MAX_API_COUNT) < fuel)%nat ->
  fst (Root._get_jobs self environ (Examples.api_of db) fuel states n log)
  = Returns (take (Z.to_nat n) db).
Proof.
  intros Hcr Htags Hn Hfuel.
  rewrite Root_get_jobs_eq, Hcr, Htags, Monitors_while_True_frame.
  cbn [fst].
  apply (Monitors_while_True_api_of db states tgs ∅ n fuel
           (n / MAX_API_COUNT)).
  - apply Z.div_pos; [lia|done].
  - lia.
  - done.
  - done.
  - unfold MAX_API_COUNT.
    pose proof (Z.div_mod n 1000 ltac:(done)) as Hdm.
    pose proof (Z.mod_pos_bound n 1000 ltac:(done)) as Hb. lia.
  - done.
Qed.

Lemma get_jobs_takes_first_witness :
  fst (Root._get_jobs (Examples.monitor Examples.settings_2500) None
         (Examples.api_of Examples.many_jobs) 3 ["finished"] 2500 [])
  = Returns (take (Z.to_nat 2500) Examples.many_jobs).
Proof.
  apply (get_jobs_takes_first (Examples.monitor Examples.settings_2500) None
           Examples.many_jobs 3 ["finished"] [] 2500 []).
  - reflexivity.
  - reflexivity.
  - lia.
  - vm_compute. lia.
Defined.

(** ** Errors of the threshold computation *)

(** X19. Once the fetcher has returned its jobs, [get_threshold] of either
    variant makes no further call, raises ZeroDivisionError exactly when no
    job was returned, and can otherwise raise only OverflowError or
    ValueError, from a mean or a product that is not a finite number. *)
Theorem get_threshold_errors (self : Monitor) (environ : option json_text)
    (client : Client) (fuel : nat) (log log' : list Request)
    (jobs : list Job) :
  (Monitors._get_jobs self environ client fuel
     (getlist (SPIDERMON_JOBS_COMPARISON_STATES (crawler_settings self))
              ["finished"])
     (getint (SPIDERMON_JOBS_COMPARISON (crawler_settings self))) log
   = (Returns jobs, log') ->
   snd (Monitors.get_threshold self environ client fuel log) = log'
   /\ (fst (Monitors.get_threshold self environ client fuel log)
       = Raises ZeroDivisionError <-> jobs = [])
   /\ forall e : exn,
        fst (Monitors.get_threshold self environ client fuel log) = Raises e ->
        e = ZeroDivisionError \/ e = OverflowError \/ e = ValueError)
  /\ (Root._get_jobs self environ client fuel
        (getlist (SPIDERMON_JOBS_COMPARISON_STATES (crawler_settings self))
                 ["finished"])
        (getint (SPIDERMON_JOBS_COMPARISON (crawler_settings self))) log
      = (Returns jobs, log') ->
      snd (Root.get_threshold self environ client fuel log) = log'
      /\ (fst (Root.get_threshold self environ client fuel log)
          = Raises ZeroDivisionError <-> jobs = [])
      /\ forall e : exn,
           fst (Root.get_threshold self environ client fuel log) = Raises e ->
           e = ZeroDivisionError \/ e = OverflowError \/ e = ValueError).
Proof.
  split; intros Hjobs.
  - rewrite Monitors_get_threshold_eq, Hjobs. cbn [fst snd].
    split; [done|]. apply expected_minimum_errors.
  - rewrite Root_get_threshold_eq, Hjobs. cbn [fst snd].
    split; [done|]. apply expected_minimum_errors.
Qed.

Lemma get_threshold_errors_witness :
  snd (Root.get_threshold (Examples.monitor Examples.settings_2_finished)
         None (Examples.api_of Examples.four_jobs) 1 [])
  = [{| start := 0; state := ["finished"]; count := 2; has_tag := None |}]
  /\ (fst (Root.get_threshold (Examples.monitor Examples.settings_2_finished)
             None (Examples.api_of Examples.four_jobs) 1 [])
      = Raises ZeroDivisionError
      <-> [Examples.job 10 "finished" None] = [])
  /\ forall e : exn,
       fst (Root.get_threshold (Examples.monitor Examples.settings_2_finished)
              None (Examples.api_of Examples.four_jobs) 1 []) = Raises e ->
       e = ZeroDivisionError \/ e = OverflowError \/ e = ValueError.
Proof.
  apply (get_threshold_errors (Examples.monitor Examples.settings_2_finished)
           None (Examples.api_of Examples.four_jobs) 1 []
           [{| start := 0; state := ["finished"]; count := 2;
               has_tag := None |}]
           [Examples.job 10 "finished" None]).
  vm_compute. reflexivity.
Defined.
